(** * Profiler session lifecycle (tensorflow/core/profiler/lib/profiler_session.cc)

    A shallow embedding of [ProfilerSession]: the options merge rule
    [GetOptions], the constructor, [Status], [CollectDataInternal],
    [CollectData] and the destructor.  External collaborators (the process
    lock, the clock, the collector plugins, their factory, the post-processing
    step and the logger) act on an explicit [World]; every call to one of them
    is appended to the world's call history, so that statements about which
    calls happen, and in which order, are statements about that history.
    The session's own [mutex_] only serialises [Status] and
    [CollectDataInternal]; member functions run one at a time here, so it
    does not appear.  The platform macro is a boolean of the environment. *)

From Stdlib Require Import ZArith String List Bool Lia.
Import ListNotations.
Local Open Scope Z_scope.

(* ================================================================== *)
(** ** tensorflow::Status *)

Inductive Code :=
| ALREADY_ACTIVE      (* the process lock is held by another session *)
| UNIMPLEMENTED       (* errors::Unimplemented *)
| INTERNAL
| UNAVAILABLE.

Inductive Status :=
| OK
| Error (code : Code) (message : string).

Definition ok (s : Status) : bool :=
  match s with OK => true | Error _ _ => false end.

Module errors.
Definition Unimplemented (message : string) : Status := Error UNIMPLEMENTED message.
End errors.

(* ================================================================== *)
(** ** ProfileOptions *)

(** Modelled from the spec: the options message (profiler_options.proto is not
    part of the sources): a version marker, the flag carried by the old
    format, a scheduled absolute start timestamp in nanoseconds (a signed
    64-bit quantity, where a value <= 0 means start immediately) and the
    remaining collector-specific fields, kept as an association list from
    field name to value. *)
Record ProfileOptions := {
  version : Z;
  include_dataset_ops : bool;
  start_timestamp_ns : Z;
  other_fields : list (string * Z)
}.

Definition set_include_dataset_ops (b : bool) (o : ProfileOptions) : ProfileOptions :=
  {| version := version o;
     include_dataset_ops := b;
     start_timestamp_ns := start_timestamp_ns o;
     other_fields := other_fields o |}.

(** A default-constructed message: every field at its zero value. *)
Definition ProfileOptions_empty : ProfileOptions :=
  {| version := 0; include_dataset_ops := false;
     start_timestamp_ns := 0; other_fields := [] |}.

(* ================================================================== *)
(** ** 64-bit signed arithmetic *)

Definition int64_min : Z := - 2 ^ 63.
Definition int64_max : Z := 2 ^ 63 - 1.


(** Two's complement wrap-around of an integer into the int64_t range. *)
Definition wrap_int64 (z : Z) : Z := (z + 2 ^ 63) mod 2 ^ 64 - 2 ^ 63.

(* ================================================================== *)
(** ** The world the session runs in *)

(** One entry per call to an external collaborator.  Plugins are named by
    their position in the list the factory returned. *)
Inductive Call :=
| CallAcquire                                  (* ProfilerLock::Acquire() *)
| CallReleaseIfActive (was_active : bool)      (* ProfilerLock::ReleaseIfActive() *)
| CallGetCurrentTimeNanos                      (* profiler::GetCurrentTimeNanos() *)
| CallSleepForNanos (ns : Z)                   (* profiler::SleepForNanos(ns) *)
| CallCreateProfilers (options : ProfileOptions)
| CallStart (i : nat)                          (* profilers_[i]->Start() *)
| CallStop (i : nat)                           (* profilers_[i]->Stop() *)
| CallCollectData (i : nat)                    (* profilers_[i]->CollectData(space) *)
| CallPostProcess (start_time_ns : option Z).  (* PostProcessSingleHostXSpace *)

Inductive Severity := INFO | WARNING.

Inductive LogMessage :=
| MsgInitializing
| MsgLateBy (ns : Z)
| MsgDelaying (ns : Z)
| MsgStarted
| MsgStartError (start_status : Status)
| MsgCollecting
| MsgTearDown.

Record World := {
  session_active : bool;        (* the process-wide flag behind ProfilerLock *)
  now_ns : Z;                   (* the wall clock, in nanoseconds *)
  calls : list Call;            (* history of external calls, oldest first *)
  logged : list (Severity * LogMessage)
}.

Definition set_session_active (b : bool) (w : World) : World :=
  {| session_active := b; now_ns := now_ns w;
     calls := calls w; logged := logged w |}.

Definition set_now_ns (t : Z) (w : World) : World :=
  {| session_active := session_active w; now_ns := t;
     calls := calls w; logged := logged w |}.

Definition record_call (c : Call) (w : World) : World :=
  {| session_active := session_active w; now_ns := now_ns w;
     calls := calls w ++ [c]; logged := logged w |}.

Definition record_log (l : Severity * LogMessage) (w : World) : World :=
  {| session_active := session_active w; now_ns := now_ns w;
     calls := calls w; logged := logged w ++ [l] |}.

(** State passing over the world. *)
Definition M (A : Type) : Type := World -> A * World.

Definition ret {A} (a : A) : M A := fun w => (a, w).

Definition bind {A B} (m : M A) (k : A -> M B) : M B :=
  fun w => let (a, w') := m w in k a w'.

Declare Scope session_scope.
Delimit Scope session_scope with session.
Notation "x <- m ;; k" := (bind m (fun x => k))
  (at level 61, m at next level, right associativity) : session_scope.
Notation "m ;; k" := (bind m (fun _ => k))
  (at level 61, right associativity) : session_scope.
Notation "' pat <- m ;; k" := (bind m (fun x => match x with pat => k end))
  (at level 61, pat pattern, m at next level, right associativity) : session_scope.
Local Open Scope session_scope.

Definition LOG (sev : Severity) (msg : LogMessage) : M unit :=
  fun w => (tt, record_log (sev, msg) w).

(* ------------------------------------------------------------------ *)
(** *** Clock *)

(** Modelled from the spec: the clock services (time_utils.h is not part of
    the sources), with their standard semantics: [GetCurrentTimeNanos] reads
    the wall clock and [SleepForNanos] returns once the given duration has
    elapsed. *)
Definition GetCurrentTimeNanos : M Z :=
  fun w => (now_ns w, record_call CallGetCurrentTimeNanos w).

Definition SleepForNanos (ns : Z) : M unit :=
  fun w => (tt, record_call (CallSleepForNanos ns)
                  (set_now_ns (now_ns w + Z.max 0 ns) w)).

(* ------------------------------------------------------------------ *)
(** *** ProfilerLock *)

Module ProfilerLock.

(** Modelled from the spec: the process lock (profiler_lock.h is not part
    of the sources).  A token records whether it currently holds the
    process-wide flag; a default-constructed token holds nothing. *)
Record t := { active_ : bool }.

Definition inactive : t := {| active_ := false |}.

Definition Active (l : t) : bool := active_ l.

(** Modelled from the spec: [TryAcquire] succeeds with a token when no
    session holds the flag and fails with AlreadyActive otherwise. *)
Definition Acquire : M (Status + t) :=
  fun w =>
    if session_active w
    then (inl (Error ALREADY_ACTIVE "Another profiling session active."%string),
          record_call CallAcquire w)
    else (inr {| active_ := true |},
          record_call CallAcquire (set_session_active true w)).

(** Modelled from the spec: [ReleaseIfActive] frees the flag when the token
    holds it and is a no-op on a released or never-acquired token. *)
Definition ReleaseIfActive (l : t) : M t :=
  fun w =>
    if active_ l
    then (inactive, record_call (CallReleaseIfActive true)
                      (set_session_active false w))
    else (l, record_call (CallReleaseIfActive false) w).

End ProfilerLock.

(* ================================================================== *)
(** ** External collaborators of the session *)

Module ProfilerInterface.

(** The plugin interface: three independently fallible operations on a
    plugin's own state; [CollectData] also writes into the output. *)
Class t (XSpace P : Type) := {
  Start : P -> Status * P;
  Stop : P -> Status * P;
  CollectData : P -> XSpace -> Status * P * XSpace
}.

End ProfilerInterface.

(** What the translation unit takes from the rest of the repository: the
    output container, the plugins and their factory, the post-processing
    step, [ProfilerSession::DefaultOptions()] and the platform macro. *)
Class Env := {
  XSpace : Type;
  Profiler : Type;
  Profiler_iface :: ProfilerInterface.t XSpace Profiler;
  CreateProfilers : ProfileOptions -> list Profiler;
  PostProcessSingleHostXSpace : XSpace -> option Z -> XSpace;
  DefaultOptions : ProfileOptions;
  IS_MOBILE_PLATFORM : bool
}.

(* ================================================================== *)
(** ** The session *)

Section Session.

Context {env : Env}.

(** [GetOptions], lines 42-47. *)
Definition GetOptions (opts : ProfileOptions) : ProfileOptions :=
  if negb (version opts =? 0) then opts
  else
    let options := DefaultOptions in
    set_include_dataset_ops (include_dataset_ops opts) options.

(** A range-for loop over [profilers_]: the body runs on every plugin in
    list order, may update the plugin and an accumulator. *)
Fixpoint for_each {A : Type} (body : nat -> Profiler -> A -> M (Profiler * A))
         (i : nat) (ps : list Profiler) (a : A) : M (list Profiler * A) :=
  match ps with
  | [] => ret ([], a)
  | p :: rest =>
      '(p', a') <- body i p a ;;
      '(rest', a'') <- for_each body (S i) rest a' ;;
      ret (p' :: rest', a'')
  end.

(** [auto start_status = profiler->Start(); if (!start_status.ok()) LOG(WARNING) ...] *)
Definition start_body (i : nat) (p : Profiler) (_ : unit) : M (Profiler * unit) :=
  fun w =>
    let (start_status, p') := ProfilerInterface.Start p in
    let w' := record_call (CallStart i) w in
    if ok start_status then ((p', tt), w')
    else ((p', tt), record_log (WARNING, MsgStartError start_status) w').

(** [profiler->Stop().IgnoreError();] *)
Definition stop_body (i : nat) (p : Profiler) (_ : unit) : M (Profiler * unit) :=
  fun w =>
    let (_, p') := ProfilerInterface.Stop p in
    ((p', tt), record_call (CallStop i) w).

(** [profiler->CollectData(space).IgnoreError();] *)
Definition collect_body (i : nat) (p : Profiler) (space : XSpace)
  : M (Profiler * XSpace) :=
  fun w =>
    let '(_, p', space') := ProfilerInterface.CollectData p space in
    ((p', space'), record_call (CallCollectData i) w).

Definition CreateProfilers_call (options : ProfileOptions) : M (list Profiler) :=
  fun w => (CreateProfilers options, record_call (CallCreateProfilers options) w).

Definition PostProcess_call (space : XSpace) (start_time_ns : option Z) : M XSpace :=
  fun w => (PostProcessSingleHostXSpace space start_time_ns,
            record_call (CallPostProcess start_time_ns) w).

(** The data members.  [start_time_ns_] has no initializer: [None] stands
    for a member the constructor never assigned. *)
Record ProfilerSession := {
  options_ : ProfileOptions;
  profiler_lock_ : ProfilerLock.t;
  status_ : Status;
  profilers_ : list Profiler;
  start_time_ns_ : option Z
}.

Definition set_profilers (ps : list Profiler) (s : ProfilerSession) : ProfilerSession :=
  {| options_ := options_ s; profiler_lock_ := profiler_lock_ s;
     status_ := status_ s; profilers_ := ps;
     start_time_ns_ := start_time_ns_ s |}.

Definition set_profiler_lock (l : ProfilerLock.t) (s : ProfilerSession) : ProfilerSession :=
  {| options_ := options_ s; profiler_lock_ := l;
     status_ := status_ s; profilers_ := profilers_ s;
     start_time_ns_ := start_time_ns_ s |}.

(** The scheduled-start delay, lines 103-114. *)
Definition sleep_until_start (options : ProfileOptions) : M unit :=
  if 0 <? start_timestamp_ns options then
    now <- GetCurrentTimeNanos ;;
    let sleep_duration_ns := wrap_int64 (start_timestamp_ns options - now) in
    if sleep_duration_ns <? 0 then
      LOG WARNING (MsgLateBy (wrap_int64 (- sleep_duration_ns)))
    else
      LOG INFO (MsgDelaying sleep_duration_ns) ;;
      SleepForNanos sleep_duration_ns
  else ret tt.

(** [ProfilerSession::ProfilerSession], lines 88-131. *)
Definition construct (options : ProfileOptions) : M ProfilerSession :=
  if IS_MOBILE_PLATFORM then
    ret {| options_ := ProfileOptions_empty;
           profiler_lock_ := ProfilerLock.inactive;
           status_ := errors.Unimplemented
                        "Profiler is unimplemented for mobile platforms."%string;
           profilers_ := [];
           start_time_ns_ := None |}
  else
    let options_0 := GetOptions options in
    profiler_lock <- ProfilerLock.Acquire ;;
    match profiler_lock with
    | inl failure =>
        ret {| options_ := options_0;
               profiler_lock_ := ProfilerLock.inactive;
               status_ := failure;
               profilers_ := [];
               start_time_ns_ := None |}
    | inr lock =>
        LOG INFO MsgInitializing ;;
        sleep_until_start options_0 ;;
        LOG INFO MsgStarted ;;
        start_time_ns <- GetCurrentTimeNanos ;;
        created <- CreateProfilers_call options_0 ;;
        '(started, _) <- for_each start_body 0 created tt ;;
        ret {| options_ := options_0;
               profiler_lock_ := lock;
               status_ := OK;
               profilers_ := started;
               start_time_ns_ := Some start_time_ns |}
    end.


(** [ProfilerSession::CollectDataInternal], lines 61-78. *)
Definition CollectDataInternal (s : ProfilerSession) (space : XSpace)
  : M (Status * ProfilerSession * XSpace) :=
  if negb (ok (status_ s)) then ret (status_ s, s, space)
  else if IS_MOBILE_PLATFORM then ret (OK, s, space)
  else
    LOG INFO MsgCollecting ;;
    '(stopped, _) <- for_each stop_body 0 (profilers_ s) tt ;;
    '(collected, space') <- for_each collect_body 0 stopped space ;;
    lock <- ProfilerLock.ReleaseIfActive (profiler_lock_ s) ;;
    ret (OK, set_profiler_lock lock (set_profilers collected s), space').

(** [ProfilerSession::CollectData], lines 80-86. *)
Definition CollectData (s : ProfilerSession) (space : XSpace)
  : M (Status * ProfilerSession * XSpace) :=
  if IS_MOBILE_PLATFORM then ret (OK, s, space)
  else
    '(st, s', space') <- CollectDataInternal s space ;;
    if negb (ok st) then ret (st, s', space')
    else
      space'' <- PostProcess_call space' (start_time_ns_ s') ;;
      ret (OK, s', space'').

(** [ProfilerSession::~ProfilerSession], lines 133-143. *)
Definition destroy (s : ProfilerSession) : M ProfilerSession :=
  if IS_MOBILE_PLATFORM then ret s
  else
    LOG INFO MsgTearDown ;;
    '(stopped, _) <- for_each stop_body 0 (profilers_ s) tt ;;
    lock <- ProfilerLock.ReleaseIfActive (profiler_lock_ s) ;;
    ret (set_profiler_lock lock (set_profilers stopped s)).

(** [ProfilerSession::Status], lines 56-59. *)
Definition ProfilerSession_Status (s : ProfilerSession) : Status := status_ s.

End Session.

(** Running a computation in a world: its result and the world it leaves. *)
Definition result {A} (m : M A) (w : World) : A := fst (m w).
Definition after {A} (m : M A) (w : World) : World := snd (m w).

(** What a call returned, by position in the triple [CollectData] yields. *)
Definition status_of {S X} (r : Status * S * X) : Status := fst (fst r).
Definition session_of {S X} (r : Status * S * X) : S := snd (fst r).
Definition space_of {S X} (r : Status * S * X) : X := snd r.

(** The lock releases in a history that actually freed the process flag. *)
Definition frees_lock (c : Call) : bool :=
  match c with CallReleaseIfActive true => true | _ => false end.

Definition lock_frees (cs : list Call) : nat := length (filter frees_lock cs).

(** The calls by which [CollectData] does its work: stopping a plugin,
    collecting from a plugin, post-processing the output. *)
Definition collection_work (c : Call) : bool :=
  match c with
  | CallStop _ | CallCollectData _ | CallPostProcess _ => true
  | _ => false
  end.

Section SessionStates.

Context {env : Env}.

(** The plugin states after [Stop] ran on each, and the output after
    [CollectData] ran on each in list order. *)
Definition started_plugins (ps : list Profiler) : list Profiler :=
  map (fun p => snd (ProfilerInterface.Start p)) ps.

Definition stopped_plugins (ps : list Profiler) : list Profiler :=
  map (fun p => snd (ProfilerInterface.Stop p)) ps.

Definition collected_space (ps : list Profiler) (space : XSpace) : XSpace :=
  fold_left (fun sp p => snd (ProfilerInterface.CollectData p sp)) ps space.

(** The calls one [CollectData] makes on a session with [n] plugins. *)
Definition collect_sequence (n : nat) (lock_was_active : bool)
           (start_time_ns : option Z) : list Call :=
  map CallStop (seq 0 n) ++ map CallCollectData (seq 0 n)
    ++ [CallReleaseIfActive lock_was_active]
    ++ [CallPostProcess start_time_ns].

(** The states a session object goes through: it is constructed, then
    [CollectData] may run on it any number of times. *)
Inductive session_state : ProfilerSession -> Prop :=
| state_constructed (options : ProfileOptions) (w : World) :
    session_state (result (construct options) w)
| state_collected (s : ProfilerSession) (space : XSpace) (w : World) :
    session_state s ->
    session_state (session_of (result (CollectData s space) w)).

(** The claim that a [CollectData] call on a session that already went
    through one does nothing but return the stored status. *)
Definition further_CollectData_is_noop : Prop :=
  forall (s0 : ProfilerSession) (space0 : XSpace) (w0 : World),
    session_state s0 ->
    let s := session_of (result (CollectData s0 space0) w0) in
    forall (space : XSpace) (w : World),
      status_of (result (CollectData s space) w) = status_ s
      /\ exists new : list Call,
           calls (after (CollectData s space) w) = calls w ++ new
           /\ existsb collection_work new = false.

End SessionStates.

(** The world in which the constructor reaches the scheduled-start delay:
    the lock has just been taken and the first log line written. *)
Definition world_holding_lock (w : World) : World :=
  record_log (INFO, MsgInitializing)
    (record_call CallAcquire (set_session_active true w)).

Definition set_start_timestamp_ns (t : Z) (o : ProfileOptions) : ProfileOptions :=
  {| version := version o;
     include_dataset_ops := include_dataset_ops o;
     start_timestamp_ns := t;
     other_fields := other_fields o |}.

(* ================================================================== *)
(** ** Histories, and several sessions in one process *)

(** The calls only the constructor makes, and the calls only [CollectData]
    and the destructor make. *)
Definition construction_call (c : Call) : bool :=
  match c with
  | CallAcquire | CallGetCurrentTimeNanos | CallSleepForNanos _
  | CallCreateProfilers _ | CallStart _ => true
  | _ => false
  end.

Definition teardown_call (c : Call) : bool :=
  match c with
  | CallStop _ | CallCollectData _ | CallReleaseIfActive _
  | CallPostProcess _ => true
  | _ => false
  end.

(** The calls the scheduled-start delay can make: none, a clock read, or a
    clock read followed by a sleep of a non-negative int64 duration. *)
Inductive delay_calls : list Call -> Prop :=
| delay_none : delay_calls []
| delay_late : delay_calls [CallGetCurrentTimeNanos]
| delay_sleep (ns : Z) :
    0 <= ns <= int64_max ->
    delay_calls [CallGetCurrentTimeNanos; CallSleepForNanos ns].

(** The log lines the delay can write. *)
Definition delay_line (l : Severity * LogMessage) : Prop :=
  exists ns : Z, l = (WARNING, MsgLateBy ns) \/ l = (INFO, MsgDelaying ns).

Section Processes.

Context {env : Env}.

(** The warnings of the start loop: one per plugin whose [Start] failed, in
    list order, carrying the status it returned. *)
Definition start_warnings (ps : list Profiler) : list (Severity * LogMessage) :=
  flat_map (fun p =>
              let start_status := fst (ProfilerInterface.Start p) in
              if ok start_status then []
              else [(WARNING, MsgStartError start_status)]) ps.

(** How many of the given sessions hold the process lock. *)
Definition holds_lock (s : ProfilerSession) : bool :=
  ProfilerLock.Active (profiler_lock_ s).

Definition holders (l : list ProfilerSession) : nat :=
  List.length (filter holds_lock l).

(** A process: the world and the session objects alive in it.  One step
    creates a session, runs [CollectData] on a live one, or destroys one. *)
Record Process := {
  world : World;
  sessions : list ProfilerSession
}.

Inductive step : Process -> Process -> Prop :=
| step_create (options : ProfileOptions) (w : World) (l : list ProfilerSession) :
    step {| world := w; sessions := l |}
         {| world := after (construct options) w;
            sessions := l ++ [result (construct options) w] |}
| step_collect (s : ProfilerSession) (space : XSpace) (w : World)
               (before behind : list ProfilerSession) :
    step {| world := w; sessions := before ++ s :: behind |}
         {| world := after (CollectData s space) w;
            sessions := before
                          ++ session_of (result (CollectData s space) w) :: behind |}
| step_destroy (s : ProfilerSession) (w : World)
               (before behind : list ProfilerSession) :
    step {| world := w; sessions := before ++ s :: behind |}
         {| world := after (destroy s) w; sessions := before ++ behind |}.

(** The processes reachable from one with no session and a free lock. *)
Inductive reachable : Process -> Prop :=
| reachable_start (w : World) :
    session_active w = false ->
    reachable {| world := w; sessions := [] |}
| reachable_step (p q : Process) :
    reachable p -> step p q -> reachable q.

(** The process flag is set exactly when one live session holds the lock;
    without profiling support it is never set. *)
Definition lock_accounted (p : Process) : Prop :=
  holders (sessions p) = (if session_active (world p) then 1 else 0)%nat
  /\ (IS_MOBILE_PLATFORM = true -> session_active (world p) = false).


End Processes.

(* ================================================================== *)
(** ** A concrete environment *)

(** A plugin with fixed outcomes; it counts its [Stop] calls and, when its
    collection succeeds, appends its name to the output. *)
Record FixedProfiler := {
  plugin_name : string;
  start_outcome : Status;
  stop_outcome : Status;
  collect_outcome : Status;
  stops_seen : nat
}.

Definition fixed_Stop (p : FixedProfiler) : Status * FixedProfiler :=
  (stop_outcome p,
   {| plugin_name := plugin_name p; start_outcome := start_outcome p;
      stop_outcome := stop_outcome p; collect_outcome := collect_outcome p;
      stops_seen := S (stops_seen p) |}).

Definition fixed_CollectData (p : FixedProfiler) (space : list string)
  : Status * FixedProfiler * list string :=
  (collect_outcome p, p,
   if ok (collect_outcome p) then space ++ [plugin_name p] else space).

#[local] Instance FixedProfiler_iface : ProfilerInterface.t (list string) FixedProfiler :=
  {| ProfilerInterface.Start := fun p => (start_outcome p, p);
     ProfilerInterface.Stop := fixed_Stop;
     ProfilerInterface.CollectData := fixed_CollectData |}.

Definition host_tracer : FixedProfiler :=
  {| plugin_name := "host"%string; start_outcome := OK; stop_outcome := OK;
     collect_outcome := OK; stops_seen := 0%nat |}.

Definition broken_tracer : FixedProfiler :=
  {| plugin_name := "device"%string;
     start_outcome := Error INTERNAL "start failed"%string;
     stop_outcome := Error UNAVAILABLE "stop failed"%string;
     collect_outcome := Error INTERNAL "collect failed"%string;
     stops_seen := 0%nat |}.

Definition demo_defaults : ProfileOptions :=
  {| version := 1; include_dataset_ops := true; start_timestamp_ns := 0;
     other_fields := [("host_tracer_level"%string, 2);
                      ("device_tracer_level"%string, 1)] |}.

Definition demo_env (mobile : bool) (plugins : list FixedProfiler) : Env :=
  {| XSpace := list string;
     Profiler := FixedProfiler;
     Profiler_iface := FixedProfiler_iface;
     CreateProfilers := fun _ => plugins;
     PostProcessSingleHostXSpace := fun space _ => space;
     DefaultOptions := demo_defaults;
     IS_MOBILE_PLATFORM := mobile |}.

Definition supported_demo : Env := demo_env false [host_tracer; broken_tracer].

Definition mobile_demo : Env := demo_env true [host_tracer; broken_tracer].

Definition idle_world : World :=
  {| session_active := false; now_ns := 1000; calls := []; logged := [] |}.

Definition busy_world : World :=
  {| session_active := true; now_ns := 1000; calls := []; logged := [] |}.

Definition old_format_options : ProfileOptions :=
  {| version := 0; include_dataset_ops := false; start_timestamp_ns := 5000;
     other_fields := [("host_tracer_level"%string, 7)] |}.

Definition new_format_options (start : Z) : ProfileOptions :=
  {| version := 2; include_dataset_ops := false; start_timestamp_ns := start;
     other_fields := [] |}.

(* ================================================================== *)
(** ** Loops over the plugin list *)

Section Loops.

Context {env : Env}.

(** A loop whose body makes exactly one call makes one call per plugin,
    in list order. *)
Lemma for_each_calls {A : Type}
      (body : nat -> Profiler -> A -> M (Profiler * A)) (mk : nat -> Call) :
  (forall i p a w, calls (after (body i p a) w) = calls w ++ [mk i]) ->
  forall ps i a w,
    calls (after (for_each body i ps a) w)
    = calls w ++ map mk (seq i (List.length ps)).
Proof.
  intros Hbody ps. unfold after in *.
  induction ps as [|p rest IH]; intros i a w; simpl.
  - now rewrite app_nil_r.
  - unfold bind. specialize (Hbody i p a w).
    destruct (body i p a w) as [[p' a'] w1]. simpl in Hbody.
    specialize (IH (S i) a' w1).
    destruct (for_each body (S i) rest a' w1) as [[rest' a''] w2].
    simpl in *. now rewrite IH, Hbody, <- app_assoc.
Qed.

(** Whatever part of the world the body leaves alone, the loop leaves alone. *)
Lemma for_each_frame {A X : Type}
      (body : nat -> Profiler -> A -> M (Profiler * A)) (f : World -> X) :
  (forall i p a w, f (after (body i p a) w) = f w) ->
  forall ps i a w, f (after (for_each body i ps a) w) = f w.
Proof.
  intros Hbody ps. unfold after in *.
  induction ps as [|p rest IH]; intros i a w; simpl.
  - reflexivity.
  - unfold bind. specialize (Hbody i p a w).
    destruct (body i p a w) as [[p' a'] w1]. simpl in Hbody.
    specialize (IH (S i) a' w1).
    destruct (for_each body (S i) rest a' w1) as [[rest' a''] w2].
    simpl in *. congruence.
Qed.

(** Whatever property of the world the body maintains, the loop maintains. *)
Lemma for_each_invariant {A : Type}
      (body : nat -> Profiler -> A -> M (Profiler * A)) (P : World -> Prop) :
  (forall i p a w, P w -> P (after (body i p a) w)) ->
  forall ps i a w, P w -> P (after (for_each body i ps a) w).
Proof.
  intros Hbody ps. unfold after in *.
  induction ps as [|p rest IH]; intros i a w Hw; simpl.
  - exact Hw.
  - unfold bind. specialize (Hbody i p a w Hw).
    destruct (body i p a w) as [[p' a'] w1]. simpl in Hbody.
    specialize (IH (S i) a' w1 Hbody).
    destruct (for_each body (S i) rest a' w1) as [[rest' a''] w2].
    exact IH.
Qed.

Lemma for_each_length {A : Type}
      (body : nat -> Profiler -> A -> M (Profiler * A)) :
  forall ps i a w,
    List.length (fst (result (for_each body i ps a) w)) = List.length ps.
Proof.
  intros ps. unfold result.
  induction ps as [|p rest IH]; intros i a w; simpl.
  - reflexivity.
  - unfold bind. destruct (body i p a w) as [[p' a'] w1].
    specialize (IH (S i) a' w1).
    destruct (for_each body (S i) rest a' w1) as [[rest' a''] w2].
    simpl in *. now rewrite IH.
Qed.

Lemma start_body_calls i p a w :
  calls (after (start_body i p a) w) = calls w ++ [CallStart i].
Proof.
  unfold after, start_body.
  destruct (ProfilerInterface.Start p) as [st p'].
  destruct (ok st); reflexivity.
Qed.

Lemma start_body_session_active i p a w :
  session_active (after (start_body i p a) w) = session_active w.
Proof.
  unfold after, start_body.
  destruct (ProfilerInterface.Start p) as [st p'].
  destruct (ok st); reflexivity.
Qed.

Lemma start_body_now_ns i p a w :
  now_ns (after (start_body i p a) w) = now_ns w.
Proof.
  unfold after, start_body.
  destruct (ProfilerInterface.Start p) as [st p'].
  destruct (ok st); reflexivity.
Qed.

Lemma stop_body_world i p a w :
  after (stop_body i p a) w = record_call (CallStop i) w.
Proof.
  unfold after, stop_body.
  destruct (ProfilerInterface.Stop p) as [st p']. reflexivity.
Qed.

Lemma collect_body_world i p space w :
  after (collect_body i p space) w = record_call (CallCollectData i) w.
Proof.
  unfold after, collect_body.
  destruct (ProfilerInterface.CollectData p space) as [[st p'] space'].
  reflexivity.
Qed.

(** Every plugin the factory returned is kept, whatever its [Start] said. *)
Lemma start_loop_result ps i w :
  result (for_each start_body i ps tt) w = (started_plugins ps, tt).
Proof.
  unfold result. revert i w.
  induction ps as [|p rest IH]; intros i w; simpl.
  - reflexivity.
  - unfold bind, start_body at 1.
    destruct (ProfilerInterface.Start p) as [st p'] eqn:Hp.
    assert (Hrest : forall w1,
               fst (for_each start_body (S i) rest tt w1)
               = (started_plugins rest, tt)) by (intro; apply IH).
    destruct (ok st).
    + specialize (Hrest (record_call (CallStart i) w)).
      destruct (for_each start_body (S i) rest tt _) as [[rest' u] w2].
      simpl in *. inversion Hrest; subst. reflexivity.
    + specialize (Hrest (record_log (WARNING, MsgStartError st)
                           (record_call (CallStart i) w))).
      destruct (for_each start_body (S i) rest tt _) as [[rest' u] w2].
      simpl in *. inversion Hrest; subst. reflexivity.
Qed.

Lemma stop_loop_result ps i w :
  result (for_each stop_body i ps tt) w = (stopped_plugins ps, tt).
Proof.
  unfold result. revert i w.
  induction ps as [|p rest IH]; intros i w; simpl.
  - reflexivity.
  - unfold bind, stop_body at 1.
    destruct (ProfilerInterface.Stop p) as [st p'] eqn:Hp.
    specialize (IH (S i) (record_call (CallStop i) w)).
    destruct (for_each stop_body (S i) rest tt _) as [[rest' u] w2].
    simpl in *. inversion IH; subst. reflexivity.
Qed.

Lemma collect_loop_space ps i space w :
  snd (result (for_each collect_body i ps space) w) = collected_space ps space.
Proof.
  unfold result. revert i space w.
  induction ps as [|p rest IH]; intros i space w; simpl.
  - reflexivity.
  - unfold bind, collect_body at 1.
    destruct (ProfilerInterface.CollectData p space) as [[st p'] space'] eqn:Hp.
    specialize (IH (S i) space' (record_call (CallCollectData i) w)).
    destruct (for_each collect_body (S i) rest space' _) as [[rest' sp] w2].
    simpl in *. exact IH.
Qed.

(** The world after the stop loop and after the collect loop. *)
Lemma stop_loop_world ps i w :
  let w' := after (for_each stop_body i ps tt) w in
  calls w' = calls w ++ map CallStop (seq i (List.length ps))
  /\ session_active w' = session_active w
  /\ now_ns w' = now_ns w
  /\ logged w' = logged w.
Proof.
  cbv zeta. split; [|split; [|split]].
  - apply for_each_calls. intros. now rewrite stop_body_world.
  - apply (for_each_frame stop_body session_active).
    intros. now rewrite stop_body_world.
  - apply (for_each_frame stop_body now_ns).
    intros. now rewrite stop_body_world.
  - apply (for_each_frame stop_body logged).
    intros. now rewrite stop_body_world.
Qed.

Lemma collect_loop_world ps i space w :
  let w' := after (for_each collect_body i ps space) w in
  calls w' = calls w ++ map CallCollectData (seq i (List.length ps))
  /\ session_active w' = session_active w
  /\ now_ns w' = now_ns w
  /\ logged w' = logged w.
Proof.
  cbv zeta. split; [|split; [|split]].
  - apply for_each_calls. intros. now rewrite collect_body_world.
  - apply (for_each_frame collect_body session_active).
    intros. now rewrite collect_body_world.
  - apply (for_each_frame collect_body now_ns).
    intros. now rewrite collect_body_world.
  - apply (for_each_frame collect_body logged).
    intros. now rewrite collect_body_world.
Qed.

Lemma start_loop_world ps i w :
  let w' := after (for_each start_body i ps tt) w in
  calls w' = calls w ++ map CallStart (seq i (List.length ps))
  /\ session_active w' = session_active w
  /\ now_ns w' = now_ns w.
Proof.
  cbv zeta. split; [|split].
  - apply for_each_calls. intros. apply start_body_calls.
  - apply (for_each_frame start_body session_active).
    intros. apply start_body_session_active.
  - apply (for_each_frame start_body now_ns).
    intros. apply start_body_now_ns.
Qed.

(** Starting the plugins only adds log lines. *)
Lemma start_loop_logged ps i w l :
  In l (logged w) -> In l (logged (after (for_each start_body i ps tt) w)).
Proof.
  apply (for_each_invariant start_body (fun w0 => In l (logged w0))).
  intros j p a w0 Hin. unfold after, start_body.
  destruct (ProfilerInterface.Start p) as [st p'].
  destruct (ok st); cbn; [exact Hin|].
  apply in_or_app. now left.
Qed.

Lemma stopped_plugins_length ps :
  List.length (stopped_plugins ps) = List.length ps.
Proof. apply length_map. Qed.

Lemma started_plugins_length ps :
  List.length (started_plugins ps) = List.length ps.
Proof. apply length_map. Qed.

End Loops.

(* ================================================================== *)
(** ** What each member function does *)

Section Methods.

Context {env : Env}.

(** [CollectDataInternal] on a session that passes the status check, in a
    build with profiling support. *)
Lemma CollectDataInternal_ok (s : ProfilerSession) (space : XSpace) (w : World) :
  IS_MOBILE_PLATFORM = false ->
  status_ s = OK ->
  let r := result (CollectDataInternal s space) w in
  let w' := after (CollectDataInternal s space) w in
  status_of r = OK
  /\ space_of r = collected_space (stopped_plugins (profilers_ s)) space
  /\ status_ (session_of r) = OK
  /\ options_ (session_of r) = options_ s
  /\ start_time_ns_ (session_of r) = start_time_ns_ s
  /\ ProfilerLock.Active (profiler_lock_ (session_of r)) = false
  /\ List.length (profilers_ (session_of r)) = List.length (profilers_ s)
  /\ calls w' = calls w ++ map CallStop (seq 0 (List.length (profilers_ s)))
                  ++ map CallCollectData (seq 0 (List.length (profilers_ s)))
                  ++ [CallReleaseIfActive (ProfilerLock.Active (profiler_lock_ s))]
  /\ session_active w'
     = (if ProfilerLock.Active (profiler_lock_ s) then false else session_active w)
  /\ now_ns w' = now_ns w.
Proof.
  intros Hplat Hst. cbv zeta.
  unfold result, after, status_of, session_of, space_of.
  destruct (CollectDataInternal s space w) as [[[st s'] sp] w'] eqn:E.
  cbn [fst snd]. unfold CollectDataInternal in E.
  rewrite Hst, Hplat in E. cbn [ok negb] in E. unfold bind, LOG in E.
  pose proof (stop_loop_result (profilers_ s) 0
                (record_log (INFO, MsgCollecting) w)) as Hr1.
  pose proof (stop_loop_world (profilers_ s) 0
                (record_log (INFO, MsgCollecting) w)) as Hw1.
  unfold result, after in Hr1, Hw1. cbv zeta in Hw1.
  destruct (for_each stop_body 0 (profilers_ s) tt _) as [[stopped u] w1].
  cbn [fst snd] in Hr1, Hw1. inversion Hr1; subst stopped u; clear Hr1.
  pose proof (collect_loop_space (stopped_plugins (profilers_ s)) 0 space w1) as Hr2.
  pose proof (for_each_length collect_body
                (stopped_plugins (profilers_ s)) 0 space w1) as Hl2.
  pose proof (collect_loop_world (stopped_plugins (profilers_ s)) 0 space w1) as Hw2.
  unfold result, after in Hr2, Hl2, Hw2. cbv zeta in Hw2.
  destruct (for_each collect_body 0 (stopped_plugins (profilers_ s)) space w1)
    as [[collected space'] w2].
  cbn [fst snd] in Hr2, Hl2, Hw2. subst space'.
  rewrite stopped_plugins_length in Hl2, Hw2.
  destruct Hw1 as (Hc1 & Ha1 & Hn1 & _). destruct Hw2 as (Hc2 & Ha2 & Hn2 & _).
  cbn [calls session_active now_ns record_log] in Hc1, Ha1, Hn1.
  unfold ProfilerLock.ReleaseIfActive, ProfilerLock.Active, ret in *.
  destruct (ProfilerLock.active_ (profiler_lock_ s)) eqn:Hact;
    inversion E; subst; cbn;
    repeat split; try assumption; try congruence;
    now rewrite Hc2, Hc1, <- !app_assoc.
Qed.

(** [CollectData] on a session that passes the status check, in a build
    with profiling support. *)
Lemma CollectData_ok (s : ProfilerSession) (space : XSpace) (w : World) :
  IS_MOBILE_PLATFORM = false ->
  status_ s = OK ->
  let r := result (CollectData s space) w in
  let w' := after (CollectData s space) w in
  status_of r = OK
  /\ space_of r = PostProcessSingleHostXSpace
                    (collected_space (stopped_plugins (profilers_ s)) space)
                    (start_time_ns_ s)
  /\ status_ (session_of r) = OK
  /\ options_ (session_of r) = options_ s
  /\ start_time_ns_ (session_of r) = start_time_ns_ s
  /\ ProfilerLock.Active (profiler_lock_ (session_of r)) = false
  /\ List.length (profilers_ (session_of r)) = List.length (profilers_ s)
  /\ calls w' = calls w ++ collect_sequence (List.length (profilers_ s))
                             (ProfilerLock.Active (profiler_lock_ s))
                             (start_time_ns_ s)
  /\ session_active w'
     = (if ProfilerLock.Active (profiler_lock_ s) then false else session_active w)
  /\ now_ns w' = now_ns w.
Proof.
  intros Hplat Hst. cbv zeta.
  pose proof (CollectDataInternal_ok s space w Hplat Hst) as H.
  cbv zeta in H. unfold result, after, status_of, session_of, space_of in *.
  destruct (CollectData s space w) as [[[st2 s2] sp2] w2] eqn:E.
  unfold CollectData in E. rewrite Hplat in E. unfold bind in E.
  destruct (CollectDataInternal s space w) as [[[st s'] space'] w1].
  cbn [fst snd] in H |- *.
  destruct H as (H1 & H2 & H3 & H4 & H5 & H6 & H7 & H8 & H9 & H10).
  subst st. cbn [ok negb] in E. unfold PostProcess_call, ret in E.
  inversion E; subst. unfold collect_sequence. cbn.
  rewrite H8, H5, <- !app_assoc.
  repeat split; assumption.
Qed.

(** On a session whose stored status is a failure [CollectDataInternal]
    returns it at once, on every platform. *)
Lemma CollectDataInternal_failed (s : ProfilerSession) (space : XSpace) (w : World) :
  status_ s <> OK ->
  CollectDataInternal s space w = ((status_ s, s, space), w).
Proof.
  intros Hst. unfold CollectDataInternal.
  destruct (status_ s) eqn:E; [congruence|]. reflexivity.
Qed.

Lemma CollectData_failed (s : ProfilerSession) (space : XSpace) (w : World) :
  IS_MOBILE_PLATFORM = false ->
  status_ s <> OK ->
  CollectData s space w = ((status_ s, s, space), w).
Proof.
  intros Hplat Hst. unfold CollectData. rewrite Hplat. unfold bind.
  rewrite (CollectDataInternal_failed s space w Hst).
  destruct (status_ s) eqn:E; [congruence|]. reflexivity.
Qed.

(** In a build without profiling support [CollectData] does nothing and
    reports success whatever the stored status is. *)
Lemma CollectData_mobile (s : ProfilerSession) (space : XSpace) (w : World) :
  IS_MOBILE_PLATFORM = true ->
  CollectData s space w = ((OK, s, space), w).
Proof. intros Hplat. unfold CollectData. now rewrite Hplat. Qed.

Lemma construct_mobile (options : ProfileOptions) (w : World) :
  IS_MOBILE_PLATFORM = true ->
  construct options w
  = ({| options_ := ProfileOptions_empty;
        profiler_lock_ := ProfilerLock.inactive;
        status_ := errors.Unimplemented
                     "Profiler is unimplemented for mobile platforms."%string;
        profilers_ := [];
        start_time_ns_ := None |}, w).
Proof. intros Hplat. unfold construct. now rewrite Hplat. Qed.

(** Construction when the process lock is held by another session. *)
Lemma construct_lock_failure (options : ProfileOptions) (w : World) failure :
  IS_MOBILE_PLATFORM = false ->
  result ProfilerLock.Acquire w = inl failure ->
  construct options w
  = ({| options_ := GetOptions options;
        profiler_lock_ := ProfilerLock.inactive;
        status_ := failure;
        profilers_ := [];
        start_time_ns_ := None |}, record_call CallAcquire w).
Proof.
  intros Hplat Hacq. unfold construct. rewrite Hplat.
  unfold bind, result, ProfilerLock.Acquire in *.
  destruct (session_active w); cbn in *; [|discriminate].
  inversion Hacq; subst. reflexivity.
Qed.

End Methods.

(* ================================================================== *)
(** ** Construction and destruction *)


Section Lifecycle.

Context {env : Env}.

(** The delay never touches the process flag. *)
Lemma sleep_until_start_session_active (options : ProfileOptions) (w : World) :
  session_active (after (sleep_until_start options) w) = session_active w.
Proof.
  unfold after, sleep_until_start.
  destruct (0 <? start_timestamp_ns options); [|reflexivity].
  unfold bind, GetCurrentTimeNanos. cbn.
  destruct (wrap_int64 (start_timestamp_ns options - now_ns w) <? 0); reflexivity.
Qed.

(** No timestamp scheduled: nothing happens. *)
Lemma sleep_until_start_unset (options : ProfileOptions) (w : World) :
  start_timestamp_ns options <= 0 ->
  after (sleep_until_start options) w = w.
Proof.
  intros H. unfold after, sleep_until_start.
  destruct (Z.ltb_spec 0 (start_timestamp_ns options)); [lia | reflexivity].
Qed.



(** Construction once the lock is acquired: the delay, then the start
    timestamp, then the factory, then every plugin's [Start]. *)
Lemma construct_lock_acquired (options : ProfileOptions) (w : World) :
  IS_MOBILE_PLATFORM = false ->
  session_active w = false ->
  let merged := GetOptions options in
  let w2 := after (sleep_until_start merged) (world_holding_lock w) in
  let s := result (construct options) w in
  let w' := after (construct options) w in
  s = {| options_ := merged;
         profiler_lock_ := {| ProfilerLock.active_ := true |};
         status_ := OK;
         profilers_ := started_plugins (CreateProfilers merged);
         start_time_ns_ := Some (now_ns w2) |}
  /\ calls w' = calls w2 ++ [CallGetCurrentTimeNanos; CallCreateProfilers merged]
                  ++ map CallStart (seq 0 (List.length (CreateProfilers merged)))
  /\ session_active w' = true
  /\ now_ns w' = now_ns w2
  /\ (forall l, In l (logged w2) -> In l (logged w')).
Proof.
  intros Hplat Hfree. cbv zeta. unfold result, after.
  destruct (construct options w) as [s w'] eqn:E. cbn [fst snd].
  unfold construct in E. rewrite Hplat in E.
  unfold bind at 1 in E. unfold ProfilerLock.Acquire in E. rewrite Hfree in E.
  unfold bind at 1 in E. unfold LOG at 1 in E.
  unfold bind at 1 in E. fold (world_holding_lock w) in E.
  pose proof (sleep_until_start_session_active (GetOptions options)
                (world_holding_lock w)) as Ha.
  unfold after in *.
  destruct (sleep_until_start (GetOptions options) (world_holding_lock w))
    as [u w2]. cbn [snd] in *.
  unfold bind, LOG, GetCurrentTimeNanos, CreateProfilers_call in E.
  pose proof (start_loop_result (CreateProfilers (GetOptions options)) 0
                (record_call (CallCreateProfilers (GetOptions options))
                   (record_call CallGetCurrentTimeNanos
                      (record_log (INFO, MsgStarted) w2)))) as Hr.
  pose proof (start_loop_world (CreateProfilers (GetOptions options)) 0
                (record_call (CallCreateProfilers (GetOptions options))
                   (record_call CallGetCurrentTimeNanos
                      (record_log (INFO, MsgStarted) w2)))) as Hw.
  pose proof (fun l => start_loop_logged (CreateProfilers (GetOptions options)) 0
                (record_call (CallCreateProfilers (GetOptions options))
                   (record_call CallGetCurrentTimeNanos
                      (record_log (INFO, MsgStarted) w2))) l) as Hl.
  unfold result, after in Hr, Hw, Hl. cbv zeta in Hw.
  destruct (for_each start_body 0 (CreateProfilers (GetOptions options)) tt _)
    as [[started v] w3].
  cbn [fst snd] in Hr, Hw, Hl. inversion Hr; subst started v; clear Hr.
  destruct Hw as (Hc & Hs & Hn). cbn in Hc, Hs, Hn, Hl.
  unfold ret in E. inversion E; subst s w'; clear E.
  split; [reflexivity|]. split; [|split; [|split]].
  - rewrite Hc, <- !app_assoc. reflexivity.
  - rewrite Hs. exact Ha.
  - exact Hn.
  - intros l Hin. apply Hl. apply in_or_app. now left.
Qed.

(** The destructor in a build with profiling support. *)
Lemma destroy_supported (s : ProfilerSession) (w : World) :
  IS_MOBILE_PLATFORM = false ->
  let s' := result (destroy s) w in
  let w' := after (destroy s) w in
  profilers_ s' = stopped_plugins (profilers_ s)
  /\ ProfilerLock.Active (profiler_lock_ s') = false
  /\ calls w' = calls w ++ map CallStop (seq 0 (List.length (profilers_ s)))
                  ++ [CallReleaseIfActive (ProfilerLock.Active (profiler_lock_ s))]
  /\ session_active w'
     = (if ProfilerLock.Active (profiler_lock_ s) then false else session_active w).
Proof.
  intros Hplat. cbv zeta. unfold result, after.
  destruct (destroy s w) as [s' w'] eqn:E. cbn [fst snd].
  unfold destroy in E. rewrite Hplat in E. unfold bind, LOG in E.
  pose proof (stop_loop_result (profilers_ s) 0
                (record_log (INFO, MsgTearDown) w)) as Hr.
  pose proof (stop_loop_world (profilers_ s) 0
                (record_log (INFO, MsgTearDown) w)) as Hw.
  unfold result, after in Hr, Hw. cbv zeta in Hw.
  destruct (for_each stop_body 0 (profilers_ s) tt _) as [[stopped u] w1].
  cbn [fst snd] in Hr, Hw. inversion Hr; subst stopped u; clear Hr.
  destruct Hw as (Hc & Ha & _). cbn in Hc, Ha.
  unfold ProfilerLock.ReleaseIfActive, ProfilerLock.Active, ret in *.
  destruct (ProfilerLock.active_ (profiler_lock_ s)) eqn:Hact;
    inversion E; subst; cbn;
    repeat split; try assumption;
    now rewrite Hc, <- !app_assoc.
Qed.

End Lifecycle.

(* ================================================================== *)
(** ** Invariants of a session object *)

Section Invariants.

Context {env : Env}.

Lemma Acquire_result (w : World) :
  result ProfilerLock.Acquire w
  = if session_active w
    then inl (Error ALREADY_ACTIVE "Another profiling session active."%string)
    else inr {| ProfilerLock.active_ := true |}.
Proof.
  unfold result, ProfilerLock.Acquire. now destruct (session_active w).
Qed.

(** A session whose status is OK was built with profiling support, has a
    start timestamp and as many plugins as the factory returned; a failed
    session has no plugin, no timestamp and no hold on the lock. *)
Lemma session_state_invariant (s : ProfilerSession) :
  session_state s ->
  (status_ s = OK ->
     IS_MOBILE_PLATFORM = false
     /\ (exists t, start_time_ns_ s = Some t)
     /\ List.length (profilers_ s) = List.length (CreateProfilers (options_ s)))
  /\ (status_ s <> OK ->
        ProfilerLock.Active (profiler_lock_ s) = false
        /\ profilers_ s = []
        /\ start_time_ns_ s = None).
Proof.
  induction 1 as [options w | s space w Hs IH].
  - destruct IS_MOBILE_PLATFORM eqn:Hplat.
    + unfold result. rewrite (construct_mobile options w Hplat). cbn.
      split; [discriminate | auto].
    + destruct (session_active w) eqn:Hact.
      * unfold result.
        rewrite (construct_lock_failure options w _ Hplat
                   (eq_trans (Acquire_result w)
                      (f_equal (fun b : bool => if b then _ else _) Hact))).
        cbn. split; [discriminate | auto].
      * destruct (construct_lock_acquired options w Hplat Hact) as (Hs & _).
        cbv zeta in Hs. rewrite Hs. cbn. split; [|congruence].
        intros _. repeat split; [eauto | apply started_plugins_length].
  - destruct IS_MOBILE_PLATFORM eqn:Hplat.
    + unfold result, session_of.
      rewrite (CollectData_mobile s space w Hplat). exact IH.
    + destruct (status_ s) eqn:Hst.
      * destruct (CollectData_ok s space w Hplat Hst)
          as (_ & _ & H3 & H4 & H5 & _ & H7 & _).
        destruct IH as [IH _]. destruct (IH eq_refl) as (_ & Ht & Hl).
        split; [|congruence]. intros _.
        rewrite H5, H7, H4. auto.
      * unfold result, session_of.
        rewrite (CollectData_failed s space w Hplat)
          by (rewrite Hst; discriminate).
        cbn. rewrite Hst. exact IH.
Qed.

Lemma ok_session_is_supported (s : ProfilerSession) :
  session_state s -> status_ s = OK -> IS_MOBILE_PLATFORM = false.
Proof. intros Hs Hok. now apply (session_state_invariant s Hs). Qed.

(** Once [CollectData] has run, the session holds no lock. *)
Lemma collected_session_released (s : ProfilerSession) (space : XSpace) (w : World) :
  session_state s ->
  ProfilerLock.Active
    (profiler_lock_ (session_of (result (CollectData s space) w))) = false.
Proof.
  intros Hs. destruct (session_state_invariant s Hs) as [Hok Hfail].
  destruct (status_ s) eqn:Hst.
  - destruct (Hok eq_refl) as (Hplat & _).
    now destruct (CollectData_ok s space w Hplat Hst) as (_ & _ & _ & _ & _ & H & _).
  - assert (Hne : Error code message <> OK) by discriminate.
    destruct (Hfail Hne) as (Hrel & _).
    destruct IS_MOBILE_PLATFORM eqn:Hplat; unfold result, session_of.
    + now rewrite (CollectData_mobile s space w Hplat).
    + rewrite (CollectData_failed s space w Hplat) by (rewrite Hst; exact Hne).
      exact Hrel.
Qed.

End Invariants.

(* ================================================================== *)
(** ** Options merge and construction *)

Section ConstructionClaims.

Context {env : Env}.

(** C1.  On a platform with profiling support: when acquiring the process
    lock fails, the session's status is the lock's failure and the
    constructor stops there (the only call made is the acquisition itself:
    no factory call, no clock read, no plugin [Start]; the plugin list is
    empty and no start timestamp is recorded); when it succeeds, the status
    is OK whatever the plugins' [Start] returned, and the plugin list holds
    every plugin the factory returned, failing ones included. *)
Theorem construct_lock_outcome :
  IS_MOBILE_PLATFORM = false ->
  forall (options : ProfileOptions) (w : World),
    let s := result (construct options) w in
    let w' := after (construct options) w in
    (forall failure,
        result ProfilerLock.Acquire w = inl failure ->
        ProfilerSession_Status s = failure
        /\ profilers_ s = []
        /\ start_time_ns_ s = None
        /\ calls w' = calls w ++ [CallAcquire])
    /\ (forall lock,
           result ProfilerLock.Acquire w = inr lock ->
           ProfilerSession_Status s = OK
           /\ profilers_ s = started_plugins (CreateProfilers (GetOptions options))
           /\ List.length (profilers_ s)
              = List.length (CreateProfilers (GetOptions options))).
Proof.
  intros Hplat options w. cbv zeta. split.
  - intros failure Hacq. unfold result, after.
    rewrite (construct_lock_failure options w failure Hplat Hacq).
    cbn. auto.
  - intros lock Hacq. rewrite Acquire_result in Hacq.
    destruct (session_active w) eqn:Hact; [discriminate|].
    destruct (construct_lock_acquired options w Hplat Hact) as (Hs & _).
    cbv zeta in Hs. rewrite Hs. cbn.
    repeat split. apply started_plugins_length.
Qed.

(** C6.  A caller's options with a nonzero version are used unchanged.  With
    version zero the merged options carry the caller's
    [include_dataset_ops], and their version, start timestamp and remaining
    fields are those of [DefaultOptions].  The merged options are the ones
    the session stores. *)
Theorem GetOptions_merge (opts : ProfileOptions) :
  (version opts <> 0 -> GetOptions opts = opts)
  /\ (version opts = 0 ->
      include_dataset_ops (GetOptions opts) = include_dataset_ops opts
      /\ version (GetOptions opts) = version DefaultOptions
      /\ start_timestamp_ns (GetOptions opts) = start_timestamp_ns DefaultOptions
      /\ other_fields (GetOptions opts) = other_fields DefaultOptions)
  /\ (IS_MOBILE_PLATFORM = false ->
      forall w, options_ (result (construct opts) w) = GetOptions opts).
Proof.
  split; [|split].
  - intros Hv. unfold GetOptions.
    destruct (Z.eqb_spec (version opts) 0); [contradiction | reflexivity].
  - intros Hv. unfold GetOptions. rewrite Hv. cbn. repeat split.
  - intros Hplat w. destruct (session_active w) eqn:Hact.
    + unfold result.
      rewrite (construct_lock_failure opts w _ Hplat
                 (eq_trans (Acquire_result w)
                    (f_equal (fun b : bool => if b then _ else _) Hact))).
      reflexivity.
    + destruct (construct_lock_acquired opts w Hplat Hact) as (Hs & _).
      cbv zeta in Hs. now rewrite Hs.
Qed.


(** C10.  With version zero every field of the merged options other than
    [include_dataset_ops] is the default's; the caller's
    [start_timestamp_ns] is discarded: construction is the same whatever
    timestamp a version-zero request carries, and when the defaults
    schedule no start the constructor never sleeps. *)
Theorem old_format_timestamp_discarded (opts : ProfileOptions) :
  version opts = 0 ->
  let merged := GetOptions opts in
  version merged = version DefaultOptions
  /\ start_timestamp_ns merged = start_timestamp_ns DefaultOptions
  /\ other_fields merged = other_fields DefaultOptions
  /\ include_dataset_ops merged = include_dataset_ops opts
  /\ (forall (t : Z) (w : World),
         construct (set_start_timestamp_ns t opts) w = construct opts w)
  /\ (start_timestamp_ns DefaultOptions <= 0 ->
      IS_MOBILE_PLATFORM = false ->
      forall w : World,
        session_active w = false ->
        calls (after (construct opts) w)
        = calls w ++ [CallAcquire; CallGetCurrentTimeNanos;
                      CallCreateProfilers merged]
            ++ map CallStart (seq 0 (List.length (CreateProfilers merged)))
        /\ now_ns (after (construct opts) w) = now_ns w).
Proof.
  intros Hv. cbv zeta.
  assert (Hm : GetOptions opts
               = set_include_dataset_ops (include_dataset_ops opts) DefaultOptions)
    by (unfold GetOptions; now rewrite Hv).
  rewrite Hm. cbn [version start_timestamp_ns other_fields include_dataset_ops
                     set_include_dataset_ops].
  do 4 (split; [reflexivity|]). split.
  - intros t w. unfold construct.
    assert (Ht : GetOptions (set_start_timestamp_ns t opts) = GetOptions opts)
      by (unfold GetOptions; cbn; now rewrite Hv).
    now rewrite Ht.
  - intros Hdef Hplat w Hfree.
    destruct (construct_lock_acquired opts w Hplat Hfree) as (_ & Hc & _ & Hn & _).
    cbv zeta in Hc, Hn. rewrite Hm in Hc, Hn.
    rewrite sleep_until_start_unset in Hc, Hn by exact Hdef.
    split; [|exact Hn].
    rewrite Hc. cbn. now rewrite <- app_assoc.
Qed.

End ConstructionClaims.

(* ================================================================== *)
(** ** Scheduled start *)

Section ScheduledStart.

Context {env : Env}.


End ScheduledStart.

(* ================================================================== *)
(** ** Collection and teardown *)

Lemma lock_frees_app (a b : list Call) :
  lock_frees (a ++ b) = (lock_frees a + lock_frees b)%nat.
Proof. unfold lock_frees. now rewrite filter_app, length_app. Qed.

Lemma lock_frees_stops (l : list nat) : lock_frees (map CallStop l) = 0%nat.
Proof. induction l as [|i l IH]; [reflexivity | exact IH]. Qed.

Lemma lock_frees_collects (l : list nat) : lock_frees (map CallCollectData l) = 0%nat.
Proof. induction l as [|i l IH]; [reflexivity | exact IH]. Qed.

Lemma lock_frees_starts (l : list nat) : lock_frees (map CallStart l) = 0%nat.
Proof. induction l as [|i l IH]; [reflexivity | exact IH]. Qed.

Section CollectionClaims.

Context {env : Env}.

(** A session that came out of its constructor with an OK status was built
    with profiling support, found the process lock free and holds it. *)
Lemma constructed_ok (options : ProfileOptions) (w : World) :
  status_ (result (construct options) w) = OK ->
  IS_MOBILE_PLATFORM = false
  /\ session_active w = false
  /\ ProfilerLock.Active (profiler_lock_ (result (construct options) w)) = true
  /\ List.length (profilers_ (result (construct options) w))
     = List.length (CreateProfilers (GetOptions options)).
Proof.
  intros Hok. destruct IS_MOBILE_PLATFORM eqn:Hplat.
  - unfold result in Hok. rewrite (construct_mobile options w Hplat) in Hok.
    discriminate.
  - destruct (session_active w) eqn:Hact.
    + unfold result in Hok.
      rewrite (construct_lock_failure options w _ Hplat
                 (eq_trans (Acquire_result w)
                    (f_equal (fun b : bool => if b then _ else _) Hact))) in Hok.
      discriminate.
    + destruct (construct_lock_acquired options w Hplat Hact) as (Hs & _).
      cbv zeta in Hs. rewrite Hs. cbn.
      repeat split. apply started_plugins_length.
Qed.

Lemma sleep_until_start_frees_nothing (options : ProfileOptions) (w : World) :
  lock_frees (calls (after (sleep_until_start options) w)) = lock_frees (calls w).
Proof.
  unfold after, sleep_until_start.
  destruct (0 <? start_timestamp_ns options); [|reflexivity].
  unfold bind, GetCurrentTimeNanos, LOG, SleepForNanos. cbn.
  destruct (wrap_int64 (start_timestamp_ns options - now_ns w) <? 0);
    cbn [snd calls record_call record_log set_now_ns]; rewrite ?lock_frees_app; cbn; lia.
Qed.

(** The constructor never frees the process lock. *)
Lemma construct_frees_nothing (options : ProfileOptions) (w : World) :
  lock_frees (calls (after (construct options) w)) = lock_frees (calls w).
Proof.
  destruct IS_MOBILE_PLATFORM eqn:Hplat.
  - unfold after. now rewrite (construct_mobile options w Hplat).
  - destruct (session_active w) eqn:Hact.
    + unfold after.
      rewrite (construct_lock_failure options w _ Hplat
                 (eq_trans (Acquire_result w)
                    (f_equal (fun b : bool => if b then _ else _) Hact))).
      cbn [snd calls record_call]. rewrite lock_frees_app. cbn. lia.
    + destruct (construct_lock_acquired options w Hplat Hact) as (_ & Hc & _).
      cbv zeta in Hc. rewrite Hc.
      rewrite !lock_frees_app, lock_frees_starts,
        sleep_until_start_frees_nothing.
      unfold world_holding_lock.
      cbn [calls record_call record_log set_session_active].
      rewrite lock_frees_app. cbn. lia.
Qed.

(** C2.  On a session whose stored status is a failure, [CollectData] does
    nothing at all: no plugin is stopped or collected from, the lock is not
    released, nothing is post-processed, and the session and the output are
    left as they were.  With profiling support the call returns the stored
    failure; without it the call returns OK all the same, so the stored
    failure is not what the caller gets. *)
Theorem failed_session_CollectData (s : ProfilerSession) :
  status_ s <> OK ->
  forall (space : XSpace) (w : World),
    let r := result (CollectData s space) w in
    after (CollectData s space) w = w
    /\ session_of r = s
    /\ space_of r = space
    /\ (IS_MOBILE_PLATFORM = false -> status_of r = status_ s)
    /\ (IS_MOBILE_PLATFORM = true -> status_of r = OK /\ status_of r <> status_ s).
Proof.
  intros Hfail space w. cbv zeta. unfold result, after, status_of, session_of, space_of.
  destruct IS_MOBILE_PLATFORM eqn:Hplat.
  - rewrite (CollectData_mobile s space w Hplat). cbn.
    repeat split; try discriminate. congruence.
  - rewrite (CollectData_failed s space w Hplat Hfail). cbn.
    repeat split; discriminate.
Qed.

(** C3.  On a session with OK status, whatever list of plugins the factory
    returned, [CollectData] calls [Stop] on every plugin in factory order,
    then [CollectData] on every plugin in factory order (each writing into
    the caller's output), then releases the process lock, then runs the
    post-processing step once on the output with the recorded start time;
    the plugins' results are ignored and the call returns OK. *)
Theorem CollectData_sequence (s : ProfilerSession) :
  session_state s ->
  status_ s = OK ->
  forall (space : XSpace) (w : World),
    let n := List.length (CreateProfilers (options_ s)) in
    let r := result (CollectData s space) w in
    let w' := after (CollectData s space) w in
    exists t : Z,
      start_time_ns_ s = Some t
      /\ status_of r = OK
      /\ calls w' = calls w
                      ++ map CallStop (seq 0 n)
                      ++ map CallCollectData (seq 0 n)
                      ++ [CallReleaseIfActive (ProfilerLock.Active (profiler_lock_ s))]
                      ++ [CallPostProcess (Some t)]
      /\ space_of r = PostProcessSingleHostXSpace
                        (collected_space (stopped_plugins (profilers_ s)) space)
                        (Some t)
      /\ ProfilerLock.Active (profiler_lock_ (session_of r)) = false
      /\ (ProfilerLock.Active (profiler_lock_ s) = true ->
          session_active w' = false).
Proof.
  intros Hs Hok space w. cbv zeta.
  destruct (session_state_invariant s Hs) as [Hinv _].
  destruct (Hinv Hok) as (Hplat & (t & Ht) & Hlen).
  destruct (CollectData_ok s space w Hplat Hok)
    as (H1 & H2 & _ & _ & _ & H6 & _ & H8 & H9 & _).
  exists t. rewrite Ht in H2, H8. rewrite Hlen in H8.
  repeat split; try assumption.
  intros Hact. now rewrite Hact in H9.
Qed.

(** C4, as amended.  On a session that already went through [CollectData],
    a further call does not free the process lock again.  If the stored
    status is a failure it makes no call at all; if it is OK it returns OK
    and again stops every plugin, collects from every plugin and runs the
    post-processing step, the release in between being a no-op.  With
    profiling support the call returns the stored status. *)
Theorem further_CollectData_repeats
        (s0 : ProfilerSession) (space0 : XSpace) (w0 : World) :
  session_state s0 ->
  let s := session_of (result (CollectData s0 space0) w0) in
  forall (space : XSpace) (w : World),
    let r := result (CollectData s space) w in
    let w' := after (CollectData s space) w in
    session_active w' = session_active w
    /\ lock_frees (calls w') = lock_frees (calls w)
    /\ (IS_MOBILE_PLATFORM = false -> status_of r = status_ s)
    /\ (status_ s <> OK -> calls w' = calls w)
    /\ (status_ s = OK ->
        status_of r = OK
        /\ calls w' = calls w
                        ++ collect_sequence (List.length (profilers_ s)) false
                             (start_time_ns_ s)).
Proof.
  intros Hs0 s space w. cbv zeta.
  assert (Hs : session_state s) by (apply state_collected; exact Hs0).
  assert (Hrel : ProfilerLock.Active (profiler_lock_ s) = false)
    by (apply collected_session_released; exact Hs0).
  destruct (session_state_invariant s Hs) as [Hinv _].
  destruct (status_ s) eqn:Hst.
  - destruct (Hinv eq_refl) as (Hplat & _).
    destruct (CollectData_ok s space w Hplat Hst)
      as (H1 & _ & _ & _ & _ & _ & _ & H8 & H9 & _).
    rewrite Hrel in H8, H9.
    split; [exact H9|]. split; [|split; [|split]].
    + rewrite H8. unfold collect_sequence.
      rewrite !lock_frees_app, lock_frees_stops, lock_frees_collects.
      cbn. lia.
    + intros _. exact H1.
    + intros Hne. now contradiction Hne.
    + intros _. split; assumption.
  - assert (Hne : Error code message <> OK) by discriminate.
    destruct IS_MOBILE_PLATFORM eqn:Hplat; unfold result, after, status_of.
    + rewrite (CollectData_mobile s space w Hplat). cbn.
      repeat split; try discriminate.
    + rewrite (CollectData_failed s space w Hplat) by (rewrite Hst; exact Hne).
      cbn. repeat split; try discriminate. now rewrite Hst.
Qed.

(** C5.  In the lifecycle of a session that was constructed with OK status,
    collected from and then destroyed, the process lock is freed exactly
    once, by [CollectData]; the destructor, in whatever world it runs, stops
    every plugin and its release is a no-op that frees nothing and leaves
    the process flag as it found it. *)
Theorem lock_released_once (options : ProfileOptions) (space : XSpace) (w0 : World) :
  let s1 := result (construct options) w0 in
  let w1 := after (construct options) w0 in
  status_ s1 = OK ->
  let r := result (CollectData s1 space) w1 in
  let w2 := after (CollectData s1 space) w1 in
  forall w3 : World,
    let w4 := after (destroy (session_of r)) w3 in
    status_of r = OK
    /\ lock_frees (calls w1) = lock_frees (calls w0)
    /\ lock_frees (calls w2) = (lock_frees (calls w1) + 1)%nat
    /\ session_active w2 = false
    /\ calls w4 = calls w3
                    ++ map CallStop
                         (seq 0 (List.length (CreateProfilers (GetOptions options))))
                    ++ [CallReleaseIfActive false]
    /\ lock_frees (calls w4) = lock_frees (calls w3)
    /\ session_active w4 = session_active w3.
Proof.
  cbv zeta. intros Hok w3.
  destruct (constructed_ok options w0 Hok) as (Hplat & Hfree & Hact & Hlen).
  destruct (CollectData_ok _ space (after (construct options) w0) Hplat Hok)
    as (H1 & _ & _ & _ & _ & H6 & H7 & H8 & H9 & _).
  rewrite Hact in H8, H9.
  destruct (destroy_supported
              (session_of (result (CollectData (result (construct options) w0) space)
                             (after (construct options) w0))) w3 Hplat)
    as (_ & _ & D3 & D4).
  rewrite H6 in D3, D4. rewrite H7, Hlen in D3.
  split; [exact H1|]. split; [|split; [|split; [|split; [|split]]]].
  - apply (construct_frees_nothing options w0).
  - rewrite H8. unfold collect_sequence.
    rewrite !lock_frees_app, lock_frees_stops, lock_frees_collects.
    cbn. lia.
  - exact H9.
  - exact D3.
  - rewrite D3, !lock_frees_app, lock_frees_stops. cbn. lia.
  - exact D4.
Qed.

End CollectionClaims.

(* ================================================================== *)
(** ** Builds without profiling support *)

Section MobilePlatform.

Context {env : Env}.

(** C8.  Without profiling support the constructor stores the
    Unimplemented status and attempts nothing else (the world is left as it
    was: no lock acquisition); [Status] reports that failure and so does
    [CollectDataInternal], but [CollectData] never consults it and returns
    OK. *)
Theorem mobile_failure_not_reported_by_CollectData
        (options : ProfileOptions) (space : XSpace) (w : World) :
  IS_MOBILE_PLATFORM = true ->
  let s := result (construct options) w in
  let unimplemented :=
    errors.Unimplemented "Profiler is unimplemented for mobile platforms."%string in
  after (construct options) w = w
  /\ ProfilerSession_Status s = unimplemented
  /\ status_of (result (CollectDataInternal s space) w) = unimplemented
  /\ status_of (result (CollectData s space) w) = OK
  /\ after (CollectData s space) w = w.
Proof.
  intros Hplat. cbv zeta. unfold result, after.
  rewrite (construct_mobile options w Hplat). cbn [fst snd].
  rewrite CollectData_mobile by exact Hplat.
  rewrite CollectDataInternal_failed by (cbn; discriminate).
  repeat split.
Qed.

End MobilePlatform.

(* ================================================================== *)
(** ** Concrete runs *)


(** The run behind it: no sleep among the calls, a lateness warning in the
    log, and the clock left where it was. *)
Example overflowing_timestamp_run :
  let w' := after (construct (env := supported_demo)
                     (new_format_options (2 ^ 63 + 1000))) idle_world in
  calls w' = [CallAcquire; CallGetCurrentTimeNanos; CallGetCurrentTimeNanos;
              CallCreateProfilers (new_format_options (2 ^ 63 + 1000));
              CallStart 0; CallStart 1]
  /\ In (WARNING, MsgLateBy int64_min) (logged w')
  /\ now_ns w' = 1000
  /\ start_time_ns_ (result (construct (env := supported_demo)
                               (new_format_options (2 ^ 63 + 1000))) idle_world)
     = Some 1000.
Proof.
  vm_compute. repeat split. right. left. reflexivity.
Qed.

(** C4 as stated fails: on a constructed session with one plugin, the second
    [CollectData] stops the plugin, collects from it and post-processes again. *)
Lemma further_CollectData_not_noop :
  ~ further_CollectData_is_noop (env := demo_env false [host_tracer]).
Proof.
  intros H.
  specialize (H (result (construct (env := demo_env false [host_tracer])
                           old_format_options) idle_world)
                [] idle_world (state_constructed _ _) [] idle_world).
  cbv zeta in H. destruct H as (_ & new & Hcalls & Hnone).
  vm_compute in Hcalls. subst new. vm_compute in Hnone. discriminate.
Qed.

Lemma failed_session_CollectData_witness :
  let s := result (construct (env := mobile_demo) old_format_options) idle_world in
  status_ s
  = Error UNIMPLEMENTED "Profiler is unimplemented for mobile platforms."%string
  /\ status_of (result (CollectData s []) idle_world) = OK
  /\ after (CollectData s []) idle_world = idle_world.
Proof.
  intro s.
  assert (Hfail : status_ s <> OK) by discriminate.
  destruct (failed_session_CollectData (env := mobile_demo) s Hfail [] idle_world)
    as (Hworld & _ & _ & _ & Hmobile).
  split; [reflexivity|].
  split; [exact (proj1 (Hmobile eq_refl)) | exact Hworld].
Defined.

Lemma construct_lock_outcome_witness :
  (ProfilerSession_Status
     (result (construct (env := supported_demo) old_format_options) busy_world)
   = Error ALREADY_ACTIVE "Another profiling session active."%string
   /\ profilers_ (result (construct (env := supported_demo) old_format_options)
                    busy_world) = []
   /\ calls (after (construct (env := supported_demo) old_format_options) busy_world)
      = [CallAcquire])
  /\ (ProfilerSession_Status
        (result (construct (env := supported_demo) old_format_options) idle_world)
      = OK
      /\ profilers_ (result (construct (env := supported_demo) old_format_options)
                       idle_world) = [host_tracer; broken_tracer]).
Proof.
  split.
  - destruct (construct_lock_outcome (env := supported_demo) eq_refl
                old_format_options busy_world) as [Hfail _].
    destruct (Hfail _ eq_refl) as (H1 & H2 & _ & H4).
    split; [exact H1 | split; [exact H2 | exact H4]].
  - destruct (construct_lock_outcome (env := supported_demo) eq_refl
                old_format_options idle_world) as [_ Hok].
    destruct (Hok _ eq_refl) as (H1 & H2 & _).
    split; [exact H1 | exact H2].
Defined.

Lemma CollectData_sequence_witness :
  let s := result (construct (env := supported_demo) old_format_options) idle_world in
  status_ s = OK
  /\ status_of (result (CollectData s []) idle_world) = OK
  /\ calls (after (CollectData s []) idle_world)
     = [CallStop 0; CallStop 1; CallCollectData 0; CallCollectData 1;
        CallReleaseIfActive true; CallPostProcess (Some 1000)].
Proof.
  intro s. split; [reflexivity|].
  destruct (CollectData_sequence (env := supported_demo) s
              (state_constructed _ _) eq_refl [] idle_world)
    as (t & Ht & H1 & H2 & _).
  split; [exact H1|].
  injection Ht as Ht. subst t. exact H2.
Defined.

Lemma further_CollectData_repeats_witness :
  let s0 := result (construct (env := supported_demo) old_format_options) idle_world in
  let s := session_of (result (CollectData s0 []) idle_world) in
  status_of (result (CollectData s []) busy_world) = OK
  /\ session_active (after (CollectData s []) busy_world) = true
  /\ calls (after (CollectData s []) busy_world)
     = [CallStop 0; CallStop 1; CallCollectData 0; CallCollectData 1;
        CallReleaseIfActive false; CallPostProcess (Some 1000)].
Proof.
  intros s0 s.
  destruct (further_CollectData_repeats (env := supported_demo) s0 [] idle_world
              (state_constructed _ _) [] busy_world)
    as (Hflag & _ & _ & _ & Hok).
  destruct (Hok eq_refl) as (H1 & H2).
  split; [exact H1 | split; [exact Hflag | exact H2]].
Defined.

Lemma lock_released_once_witness :
  let s1 := result (construct (env := supported_demo) old_format_options) idle_world in
  let w1 := after (construct (env := supported_demo) old_format_options) idle_world in
  let r := result (CollectData s1 []) w1 in
  let w2 := after (CollectData s1 []) w1 in
  let w4 := after (destroy (session_of r)) w2 in
  status_ s1 = OK
  /\ lock_frees (calls w2) = 1%nat
  /\ lock_frees (calls w4) = 1%nat
  /\ session_active w4 = false.
Proof.
  cbv zeta.
  destruct (lock_released_once (env := supported_demo) old_format_options []
              idle_world eq_refl
              (after (CollectData
                        (result (construct (env := supported_demo)
                                   old_format_options) idle_world) [])
                 (after (construct (env := supported_demo) old_format_options)
                    idle_world)))
    as (_ & H2 & H3 & H4 & _ & H6 & H7).
  split; [reflexivity|].
  split; [exact H3|].
  split; [exact (eq_trans H6 H3) | exact (eq_trans H7 H4)].
Defined.

Lemma GetOptions_merge_witness :
  GetOptions (env := supported_demo) (new_format_options 1500) = new_format_options 1500
  /\ (include_dataset_ops (GetOptions (env := supported_demo) old_format_options)
      = false
      /\ version (GetOptions (env := supported_demo) old_format_options) = 1
      /\ start_timestamp_ns (GetOptions (env := supported_demo) old_format_options) = 0
      /\ other_fields (GetOptions (env := supported_demo) old_format_options)
         = [("host_tracer_level"%string, 2); ("device_tracer_level"%string, 1)])
  /\ include_dataset_ops
       (options_ (result (construct (env := supported_demo) old_format_options)
                    idle_world)) = false.
Proof.
  destruct (GetOptions_merge (env := supported_demo) (new_format_options 1500))
    as (Hnew & _ & _).
  destruct (GetOptions_merge (env := supported_demo) old_format_options)
    as (_ & Hold & Hused).
  split; [apply Hnew; discriminate|].
  split; [exact (Hold eq_refl)|].
  exact (eq_trans (f_equal include_dataset_ops (Hused eq_refl idle_world))
           (proj1 (Hold eq_refl))).
Defined.


Lemma mobile_failure_not_reported_by_CollectData_witness :
  let s := result (construct (env := mobile_demo) old_format_options) idle_world in
  ProfilerSession_Status s
  = Error UNIMPLEMENTED "Profiler is unimplemented for mobile platforms."%string
  /\ status_of (result (CollectData s []) idle_world) = OK
  /\ calls (after (construct (env := mobile_demo) old_format_options) idle_world) = [].
Proof.
  cbv zeta.
  destruct (mobile_failure_not_reported_by_CollectData (env := mobile_demo)
              old_format_options [] idle_world eq_refl)
    as (H1 & H2 & _ & H4 & _).
  split; [exact H2 | split; [exact H4 | exact (f_equal calls H1)]].
Defined.

Lemma old_format_timestamp_discarded_witness :
  start_timestamp_ns (GetOptions (env := supported_demo) old_format_options) = 0
  /\ construct (env := supported_demo) (set_start_timestamp_ns 99999 old_format_options)
       idle_world
     = construct (env := supported_demo) old_format_options idle_world
  /\ calls (after (construct (env := supported_demo) old_format_options) idle_world)
     = [CallAcquire; CallGetCurrentTimeNanos;
        CallCreateProfilers (set_include_dataset_ops false demo_defaults);
        CallStart 0; CallStart 1].
Proof.
  destruct (old_format_timestamp_discarded (env := supported_demo)
              old_format_options eq_refl)
    as (_ & Hts & _ & _ & Hsame & Hnosleep).
  split; [exact Hts|].
  split; [exact (Hsame 99999 idle_world)|].
  assert (Hdef : start_timestamp_ns (DefaultOptions (Env := supported_demo)) <= 0)
    by (cbn; lia).
  exact (proj1 (Hnosleep Hdef eq_refl idle_world eq_refl)).
Defined.

(* ================================================================== *)
(** ** Further properties of the options merge and of construction *)

Lemma wrap_int64_range (z : Z) : int64_min <= wrap_int64 z <= int64_max.
Proof.
  unfold wrap_int64, int64_min, int64_max.
  pose proof (Z.mod_pos_bound (z + 2 ^ 63) (2 ^ 64) ltac:(lia)). lia.
Qed.

Section ConstructionHistory.

Context {env : Env}.

(** X1.  The merge rule applied twice is the merge rule applied once, and
    the caller's [include_dataset_ops] survives it whatever the version is. *)
Theorem GetOptions_idempotent (opts : ProfileOptions) :
  GetOptions (GetOptions opts) = GetOptions opts
  /\ include_dataset_ops (GetOptions opts) = include_dataset_ops opts.
Proof.
  unfold GetOptions.
  destruct (version opts =? 0) eqn:Hv; cbn [negb].
  - cbn [version include_dataset_ops set_include_dataset_ops].
    destruct (version DefaultOptions =? 0); cbn [negb]; split; reflexivity.
  - rewrite Hv. cbn [negb]. split; reflexivity.
Qed.

(** The delay makes no call, or reads the clock, or reads the clock and
    sleeps for a non-negative duration. *)
Lemma sleep_until_start_calls (options : ProfileOptions) (w : World) :
  exists delay : list Call,
    delay_calls delay
    /\ calls (after (sleep_until_start options) w) = calls w ++ delay.
Proof.
  unfold after, sleep_until_start.
  destruct (0 <? start_timestamp_ns options).
  - unfold bind, GetCurrentTimeNanos, LOG, SleepForNanos.
    cbn [fst snd now_ns record_call].
    destruct (Z.ltb_spec (wrap_int64 (start_timestamp_ns options - now_ns w)) 0)
      as [Hlate | Hwait].
    + exists [CallGetCurrentTimeNanos]. split; [constructor | reflexivity].
    + exists [CallGetCurrentTimeNanos;
              CallSleepForNanos (wrap_int64 (start_timestamp_ns options - now_ns w))].
      split.
      * constructor. split; [exact Hwait | apply wrap_int64_range].
      * cbn. now rewrite <- app_assoc.
  - exists []. split; [constructor | cbn; now rewrite app_nil_r].
Qed.

(** The delay writes at most one log line, about lateness or about the
    delay. *)
Lemma sleep_until_start_logged (options : ProfileOptions) (w : World) :
  exists lines : list (Severity * LogMessage),
    Forall delay_line lines
    /\ (List.length lines <= 1)%nat
    /\ logged (after (sleep_until_start options) w) = logged w ++ lines.
Proof.
  unfold after, sleep_until_start.
  destruct (0 <? start_timestamp_ns options).
  - unfold bind, GetCurrentTimeNanos, LOG, SleepForNanos.
    cbn [fst snd now_ns record_call].
    destruct (wrap_int64 (start_timestamp_ns options - now_ns w) <? 0).
    + eexists [_]. split; [|split; [cbn; lia | reflexivity]].
      constructor; [|constructor]. eexists. left. reflexivity.
    + eexists [_]. split; [|split; [cbn; lia | reflexivity]].
      constructor; [|constructor]. eexists. right. reflexivity.
  - exists []. split; [constructor | split; [cbn; lia | cbn; now rewrite app_nil_r]].
Qed.

(** The start loop logs exactly the warnings of the failing plugins. *)
Lemma start_loop_log (ps : list Profiler) (i : nat) (w : World) :
  logged (after (for_each start_body i ps tt) w) = logged w ++ start_warnings ps.
Proof.
  unfold after. revert i w.
  induction ps as [|p rest IH]; intros i w; simpl.
  - now rewrite app_nil_r.
  - unfold bind, start_body at 1.
    destruct (ProfilerInterface.Start p) as [st p'] eqn:Hp. cbn [fst].
    destruct (ok st).
    + specialize (IH (S i) (record_call (CallStart i) w)).
      destruct (for_each start_body (S i) rest tt _) as [[rest' u] w2].
      simpl in *. rewrite IH. reflexivity.
    + specialize (IH (S i) (record_log (WARNING, MsgStartError st)
                              (record_call (CallStart i) w))).
      destruct (for_each start_body (S i) rest tt _) as [[rest' u] w2].
      simpl in *. rewrite IH. now rewrite <- app_assoc.
Qed.

(** The world a successful construction leaves, step by step. *)
Lemma construct_acquired_world (options : ProfileOptions) (w : World) :
  IS_MOBILE_PLATFORM = false ->
  session_active w = false ->
  let merged := GetOptions options in
  after (construct options) w
  = after (for_each start_body 0 (CreateProfilers merged) tt)
      (record_call (CallCreateProfilers merged)
         (record_call CallGetCurrentTimeNanos
            (record_log (INFO, MsgStarted)
               (after (sleep_until_start merged) (world_holding_lock w))))).
Proof.
  intros Hplat Hfree. cbv zeta. unfold after, construct. rewrite Hplat.
  unfold bind at 1. unfold ProfilerLock.Acquire. rewrite Hfree.
  unfold bind at 1. unfold LOG at 1.
  unfold bind at 1. fold (world_holding_lock w).
  destruct (sleep_until_start (GetOptions options) (world_holding_lock w))
    as [u w2]. cbn [snd].
  unfold bind, LOG, GetCurrentTimeNanos, CreateProfilers_call.
  destruct (for_each start_body 0 (CreateProfilers (GetOptions options)) tt _)
    as [[started v] w3].
  reflexivity.
Qed.

(** X2.  A successful construction logs, in this order: the initialising
    line, at most one line about the delay, the started line, and then one
    warning for each plugin whose [Start] failed, in factory order, carrying
    the status that plugin returned; plugins that start cleanly log nothing. *)
Theorem construct_logs_start_failures (options : ProfileOptions) (w : World) :
  IS_MOBILE_PLATFORM = false ->
  session_active w = false ->
  exists lines : list (Severity * LogMessage),
    Forall delay_line lines
    /\ (List.length lines <= 1)%nat
    /\ logged (after (construct options) w)
       = logged w ++ [(INFO, MsgInitializing)] ++ lines ++ [(INFO, MsgStarted)]
           ++ start_warnings (CreateProfilers (GetOptions options)).
Proof.
  intros Hplat Hfree.
  destruct (sleep_until_start_logged (GetOptions options) (world_holding_lock w))
    as (lines & Hlines & Hlen & Hlog).
  exists lines. split; [exact Hlines|]. split; [exact Hlen|].
  rewrite (construct_acquired_world options w Hplat Hfree).
  rewrite start_loop_log.
  cbn [logged record_call record_log]. rewrite Hlog.
  unfold world_holding_lock. cbn [logged record_call record_log set_session_active].
  now rewrite <- !app_assoc.
Qed.

(** X3.  Whatever the scheduled timestamp and the clock are, a successful
    construction makes its calls in this order: the lock acquisition, the
    delay (nothing, a clock read, or a clock read and a sleep that is never
    negative), the clock read for the start time, one factory call with the
    merged options, and [Start] once on every plugin in factory order. *)
Theorem construct_call_order (options : ProfileOptions) (w : World) :
  IS_MOBILE_PLATFORM = false ->
  session_active w = false ->
  exists delay : list Call,
    delay_calls delay
    /\ calls (after (construct options) w)
       = calls w ++ [CallAcquire] ++ delay
           ++ [CallGetCurrentTimeNanos; CallCreateProfilers (GetOptions options)]
           ++ map CallStart
                (seq 0 (List.length (CreateProfilers (GetOptions options)))).
Proof.
  intros Hplat Hfree.
  destruct (sleep_until_start_calls (GetOptions options) (world_holding_lock w))
    as (delay & Hdelay & Hcalls).
  exists delay. split; [exact Hdelay|].
  rewrite (construct_acquired_world options w Hplat Hfree).
  destruct (start_loop_world (CreateProfilers (GetOptions options)) 0
              (record_call (CallCreateProfilers (GetOptions options))
                 (record_call CallGetCurrentTimeNanos
                    (record_log (INFO, MsgStarted)
                       (after (sleep_until_start (GetOptions options))
                          (world_holding_lock w)))))) as (Hc & _).
  rewrite Hc. cbn [calls record_call record_log]. rewrite Hcalls.
  unfold world_holding_lock. cbn [calls record_call record_log set_session_active].
  now rewrite <- !app_assoc.
Qed.

End ConstructionHistory.

(* ================================================================== *)
(** ** Further properties of a session's lifecycle *)

Lemma forallb_teardown_stops (l : list nat) :
  forallb teardown_call (map CallStop l) = true.
Proof. induction l as [|i l IH]; [reflexivity | exact IH]. Qed.

Lemma forallb_teardown_collects (l : list nat) :
  forallb teardown_call (map CallCollectData l) = true.
Proof. induction l as [|i l IH]; [reflexivity | exact IH]. Qed.

Lemma forallb_construction_starts (l : list nat) :
  forallb construction_call (map CallStart l) = true.
Proof. induction l as [|i l IH]; [reflexivity | exact IH]. Qed.

Lemma forallb_construction_delay (delay : list Call) :
  delay_calls delay -> forallb construction_call delay = true.
Proof. destruct 1; reflexivity. Qed.

Section LifecycleProperties.

Context {env : Env}.

Lemma destroy_mobile (s : ProfilerSession) (w : World) :
  IS_MOBILE_PLATFORM = true -> destroy s w = (s, w).
Proof. intros Hplat. unfold destroy. now rewrite Hplat. Qed.

(** Construction while another session holds the lock. *)
Lemma construct_busy (options : ProfileOptions) (w : World) :
  IS_MOBILE_PLATFORM = false ->
  session_active w = true ->
  construct options w
  = ({| options_ := GetOptions options;
        profiler_lock_ := ProfilerLock.inactive;
        status_ := Error ALREADY_ACTIVE "Another profiling session active."%string;
        profilers_ := [];
        start_time_ns_ := None |}, record_call CallAcquire w).
Proof.
  intros Hplat Hbusy. apply (construct_lock_failure options w _ Hplat).
  rewrite Acquire_result. now rewrite Hbusy.
Qed.

(** The destructor leaves status, options and start time alone. *)
Lemma destroy_fields (s : ProfilerSession) (w : World) :
  status_ (result (destroy s) w) = status_ s
  /\ options_ (result (destroy s) w) = options_ s
  /\ start_time_ns_ (result (destroy s) w) = start_time_ns_ s.
Proof.
  unfold result, destroy.
  destruct IS_MOBILE_PLATFORM; [cbn; auto|].
  unfold bind, LOG.
  destruct (for_each stop_body 0 (profilers_ s) tt _) as [[stopped u] w1].
  unfold ProfilerLock.ReleaseIfActive, ret.
  destruct (ProfilerLock.active_ (profiler_lock_ s)); cbn; auto.
Qed.

(** X4.  The status, the merged options and the recorded start time of a
    session are fixed when the constructor returns: neither [CollectData] nor
    the destructor changes them, whatever the plugins return and on every
    platform. *)
Theorem status_fixed_at_construction
        (s : ProfilerSession) (space : XSpace) (w : World) :
  let collected := session_of (result (CollectData s space) w) in
  let destroyed := result (destroy s) w in
  (ProfilerSession_Status collected = ProfilerSession_Status s
   /\ options_ collected = options_ s
   /\ start_time_ns_ collected = start_time_ns_ s)
  /\ (ProfilerSession_Status destroyed = ProfilerSession_Status s
      /\ options_ destroyed = options_ s
      /\ start_time_ns_ destroyed = start_time_ns_ s).
Proof.
  cbv zeta. split; [|apply destroy_fields].
  unfold ProfilerSession_Status.
  destruct IS_MOBILE_PLATFORM eqn:Hplat.
  - unfold result, session_of. rewrite (CollectData_mobile s space w Hplat).
    cbn. auto.
  - destruct (status_ s) eqn:Hst.
    + destruct (CollectData_ok s space w Hplat Hst)
        as (_ & _ & H3 & H4 & H5 & _).
      rewrite H3, H4, H5. auto.
    + unfold result, session_of.
      rewrite (CollectData_failed s space w Hplat) by (rewrite Hst; discriminate).
      cbn. auto.
Qed.

(** X5.  A session keeps the plugins the factory gave it: through any number
    of [CollectData] calls a session with OK status has exactly as many
    plugins as the factory returned for its options, and a session whose
    construction failed has none. *)
Theorem plugin_count_invariant (s : ProfilerSession) :
  session_state s ->
  List.length (profilers_ s)
  = if ok (status_ s) then List.length (CreateProfilers (options_ s)) else 0%nat.
Proof.
  intros Hs. destruct (session_state_invariant s Hs) as [Hok Hfail].
  destruct (status_ s) eqn:Hst; cbn [ok].
  - now destruct (Hok eq_refl) as (_ & _ & Hlen).
  - assert (Hne : Error code message <> OK) by discriminate.
    destruct (Hfail Hne) as (_ & Hnil & _). now rewrite Hnil.
Qed.

(** X6.  A session destroyed without [CollectData] ever being called: the
    destructor stops every plugin in factory order, collects nothing,
    post-processes nothing, and frees the process lock, once. *)
Theorem destroy_without_collect (options : ProfileOptions) (w0 : World) :
  let s1 := result (construct options) w0 in
  let w1 := after (construct options) w0 in
  status_ s1 = OK ->
  let w2 := after (destroy s1) w1 in
  calls w2 = calls w1
               ++ map CallStop
                    (seq 0 (List.length (CreateProfilers (GetOptions options))))
               ++ [CallReleaseIfActive true]
  /\ profilers_ (result (destroy s1) w1) = stopped_plugins (profilers_ s1)
  /\ session_active w2 = false
  /\ lock_frees (calls w2) = (lock_frees (calls w0) + 1)%nat.
Proof.
  cbv zeta. intros Hok.
  destruct (constructed_ok options w0 Hok) as (Hplat & Hfree & Hact & Hlen).
  destruct (destroy_supported (result (construct options) w0)
              (after (construct options) w0) Hplat) as (D1 & _ & D3 & D4).
  rewrite Hact in D3, D4. rewrite Hlen in D3.
  split; [exact D3|]. split; [exact D1|]. split; [exact D4|].
  rewrite D3, !lock_frees_app, lock_frees_stops, construct_frees_nothing.
  cbn. lia.
Qed.

(** X7.  A session that found the lock taken never disturbs its holder:
    its constructor leaves the process flag set and logs nothing, and its
    destructor, in whatever world it runs, stops no plugin, frees nothing and
    leaves the process flag as it is. *)
Theorem failed_session_leaves_lock (options : ProfileOptions) (w : World) :
  IS_MOBILE_PLATFORM = false ->
  session_active w = true ->
  let s := result (construct options) w in
  let w1 := after (construct options) w in
  session_active w1 = true
  /\ logged w1 = logged w
  /\ forall wd : World,
       calls (after (destroy s) wd) = calls wd ++ [CallReleaseIfActive false]
       /\ session_active (after (destroy s) wd) = session_active wd
       /\ lock_frees (calls (after (destroy s) wd)) = lock_frees (calls wd).
Proof.
  intros Hplat Hbusy. cbv zeta.
  assert (Hs : result (construct options) w
               = {| options_ := GetOptions options;
                    profiler_lock_ := ProfilerLock.inactive;
                    status_ := Error ALREADY_ACTIVE
                                 "Another profiling session active."%string;
                    profilers_ := [];
                    start_time_ns_ := None |})
    by (unfold result; now rewrite (construct_busy options w Hplat Hbusy)).
  assert (Hw : after (construct options) w = record_call CallAcquire w)
    by (unfold after; now rewrite (construct_busy options w Hplat Hbusy)).
  rewrite Hs, Hw.
  split; [exact Hbusy|]. split; [reflexivity|]. intros wd.
  match goal with |- context [after (destroy ?s) wd] =>
    destruct (destroy_supported s wd Hplat) as (_ & _ & D3 & D4)
  end.
  cbn in D3, D4. split; [exact D3|]. split; [exact D4|].
  rewrite D3, lock_frees_app. cbn. lia.
Qed.

(** X8.  While a session constructed with OK status has neither been
    collected from nor destroyed, constructing another session, with any
    options, fails: its status is the lock's failure, it has no plugin, and
    its constructor makes no call beyond the failed acquisition. *)
Theorem second_session_refused (options other : ProfileOptions) (w0 : World) :
  let s1 := result (construct options) w0 in
  let w1 := after (construct options) w0 in
  status_ s1 = OK ->
  let s2 := result (construct other) w1 in
  let w2 := after (construct other) w1 in
  ProfilerSession_Status s2
  = Error ALREADY_ACTIVE "Another profiling session active."%string
  /\ profilers_ s2 = []
  /\ start_time_ns_ s2 = None
  /\ calls w2 = calls w1 ++ [CallAcquire]
  /\ session_active w2 = true.
Proof.
  cbv zeta. intros Hok.
  destruct (constructed_ok options w0 Hok) as (Hplat & Hfree & _).
  destruct (construct_lock_acquired options w0 Hplat Hfree) as (_ & _ & Hheld & _).
  cbv zeta in Hheld. unfold result, after in *.
  rewrite (construct_busy other _ Hplat Hheld). cbn. auto.
Qed.

(** X9.  Once a session constructed with OK status has been collected from,
    or has been destroyed, the next construction, with any options, succeeds. *)
Theorem next_session_accepted
        (options other : ProfileOptions) (space : XSpace) (w0 : World) :
  let s1 := result (construct options) w0 in
  let w1 := after (construct options) w0 in
  status_ s1 = OK ->
  ProfilerSession_Status
    (result (construct other) (after (CollectData s1 space) w1)) = OK
  /\ ProfilerSession_Status
       (result (construct other) (after (destroy s1) w1)) = OK.
Proof.
  cbv zeta. intros Hok.
  destruct (constructed_ok options w0 Hok) as (Hplat & Hfree & Hact & _).
  destruct (CollectData_ok _ space (after (construct options) w0) Hplat Hok)
    as (_ & _ & _ & _ & _ & _ & _ & _ & H9 & _).
  destruct (destroy_supported (result (construct options) w0)
              (after (construct options) w0) Hplat) as (_ & _ & _ & D4).
  rewrite Hact in H9, D4. unfold ProfilerSession_Status. split.
  - destruct (construct_lock_acquired other _ Hplat H9) as (Hs & _).
    cbv zeta in Hs. now rewrite Hs.
  - destruct (construct_lock_acquired other _ Hplat D4) as (Hs & _).
    cbv zeta in Hs. now rewrite Hs.
Qed.

End LifecycleProperties.

(* ================================================================== *)
(** ** What each member function never does *)

Section CallDiscipline.

Context {env : Env}.

(** X10.  On every platform, whatever the world and the options, the
    constructor only ever acquires the lock, reads the clock, sleeps,
    consults the factory and starts plugins: it never stops a plugin,
    collects from one, releases the lock or post-processes. *)
Theorem construct_call_discipline (options : ProfileOptions) (w : World) :
  exists new : list Call,
    calls (after (construct options) w) = calls w ++ new
    /\ forallb construction_call new = true.
Proof.
  destruct IS_MOBILE_PLATFORM eqn:Hplat.
  - exists []. unfold after. rewrite (construct_mobile options w Hplat).
    cbn. now rewrite app_nil_r.
  - destruct (session_active w) eqn:Hact.
    + exists [CallAcquire]. unfold after.
      now rewrite (construct_busy options w Hplat Hact).
    + destruct (sleep_until_start_calls (GetOptions options) (world_holding_lock w))
        as (delay & Hdelay & Hcalls).
      destruct (construct_lock_acquired options w Hplat Hact) as (_ & Hc & _).
      cbv zeta in Hc. rewrite Hcalls in Hc.
      unfold world_holding_lock in Hc.
      cbn [calls record_call record_log set_session_active] in Hc.
      rewrite <- !app_assoc in Hc.
      eexists. split; [exact Hc|].
      rewrite !forallb_app, forallb_construction_starts,
        (forallb_construction_delay delay Hdelay).
      reflexivity.
Qed.

(** X11.  On every platform and for every session object, [CollectData] and
    the destructor only ever stop plugins, collect from them, release the
    lock and post-process: they never acquire the lock, read the clock,
    sleep, consult the factory or start a plugin. *)
Theorem teardown_call_discipline
        (s : ProfilerSession) (space : XSpace) (w : World) :
  (exists new : list Call,
      calls (after (CollectData s space) w) = calls w ++ new
      /\ forallb teardown_call new = true)
  /\ (exists new : list Call,
         calls (after (destroy s) w) = calls w ++ new
         /\ forallb teardown_call new = true).
Proof.
  destruct IS_MOBILE_PLATFORM eqn:Hplat.
  - split; exists []; unfold after.
    + rewrite (CollectData_mobile s space w Hplat). cbn. now rewrite app_nil_r.
    + rewrite (destroy_mobile s w Hplat). cbn. now rewrite app_nil_r.
  - split.
    + destruct (status_ s) eqn:Hst.
      * destruct (CollectData_ok s space w Hplat Hst)
          as (_ & _ & _ & _ & _ & _ & _ & H8 & _).
        eexists. split; [exact H8|]. unfold collect_sequence.
        rewrite !forallb_app, forallb_teardown_stops, forallb_teardown_collects.
        reflexivity.
      * exists []. unfold after.
        rewrite (CollectData_failed s space w Hplat) by (rewrite Hst; discriminate).
        cbn. now rewrite app_nil_r.
    + destruct (destroy_supported s w Hplat) as (_ & _ & D3 & _).
      eexists. split; [exact D3|].
      rewrite !forallb_app, forallb_teardown_stops. reflexivity.
Qed.

(** X12.  Without profiling support a whole lifecycle (construction,
    [CollectData], destruction) leaves the world exactly as it found it: no
    call to any collaborator, no log line, no change to the process lock or
    the clock. *)
Theorem mobile_lifecycle_is_inert
        (options : ProfileOptions) (space : XSpace) (w : World) :
  IS_MOBILE_PLATFORM = true ->
  after (s <- construct options ;;
         r <- CollectData s space ;;
         destroy (session_of r)) w = w.
Proof.
  intros Hplat. unfold after, bind.
  rewrite (construct_mobile options w Hplat).
  rewrite CollectData_mobile by exact Hplat.
  unfold session_of. cbn [fst snd].
  now rewrite destroy_mobile by exact Hplat.
Qed.

(** X13.  When the factory returns no plugin, construction still succeeds
    with an empty plugin list, and [CollectData] only releases the lock and
    post-processes: the caller's output goes to the post-processing step as
    it was given, and the call returns OK. *)
Theorem no_plugin_session (options : ProfileOptions) (space : XSpace) (w0 : World) :
  IS_MOBILE_PLATFORM = false ->
  session_active w0 = false ->
  CreateProfilers (GetOptions options) = [] ->
  let s1 := result (construct options) w0 in
  let w1 := after (construct options) w0 in
  let r := result (CollectData s1 space) w1 in
  ProfilerSession_Status s1 = OK
  /\ profilers_ s1 = []
  /\ status_of r = OK
  /\ space_of r = PostProcessSingleHostXSpace space (start_time_ns_ s1)
  /\ calls (after (CollectData s1 space) w1)
     = calls w1 ++ [CallReleaseIfActive true; CallPostProcess (start_time_ns_ s1)].
Proof.
  intros Hplat Hfree Hnone. cbv zeta.
  destruct (construct_lock_acquired options w0 Hplat Hfree) as (Hs & _).
  cbv zeta in Hs. rewrite Hnone in Hs. cbn [started_plugins map] in Hs.
  assert (Hok : status_ (result (construct options) w0) = OK) by now rewrite Hs.
  destruct (CollectData_ok _ space (after (construct options) w0) Hplat Hok)
    as (H1 & H2 & _ & _ & _ & _ & _ & H8 & _).
  assert (Hnil : profilers_ (result (construct options) w0) = [])
    by now rewrite Hs.
  rewrite Hnil in H2, H8. cbn in H2, H8.
  unfold ProfilerSession_Status.
  split; [exact Hok|]. split; [exact Hnil|]. split; [exact H1|].
  split; [exact H2|].
  rewrite H8. f_equal. f_equal.
  destruct (construct_lock_acquired options w0 Hplat Hfree) as (Hs' & _).
  cbv zeta in Hs'. now rewrite Hs'.
Qed.

End CallDiscipline.

(* ================================================================== *)
(** ** Several sessions in one process *)

Section ProcessInvariant.

Context {env : Env}.

Lemma holders_app (a b : list ProfilerSession) :
  holders (a ++ b) = (holders a + holders b)%nat.
Proof. unfold holders. now rewrite filter_app, length_app. Qed.

Lemma holders_cons (s : ProfilerSession) (l : list ProfilerSession) :
  holders (s :: l) = ((if holds_lock s then 1 else 0) + holders l)%nat.
Proof. unfold holders. cbn. now destruct (holds_lock s). Qed.

Lemma step_keeps_lock_accounted (p q : Process) :
  lock_accounted p -> step p q -> lock_accounted q.
Proof.
  intros [Hcount Hmobile] Hstep.
  destruct Hstep as [options w l | s space w before behind | s w before behind];
    unfold lock_accounted in *; cbn [world sessions] in *.
  - (* a session is created *)
    rewrite holders_app, holders_cons. unfold holds_lock.
    destruct IS_MOBILE_PLATFORM eqn:Hplat.
    + unfold result, after. rewrite (construct_mobile options w Hplat).
      cbn. split; [lia | exact Hmobile].
    + destruct (session_active w) eqn:Hact.
      * unfold result, after. rewrite (construct_busy options w Hplat Hact).
        cbn. rewrite Hact. split; [lia | discriminate].
      * destruct (construct_lock_acquired options w Hplat Hact)
          as (Hs & _ & Hheld & _).
        cbv zeta in Hs. rewrite Hs, Hheld. cbn. split; [lia | discriminate].
  - (* CollectData runs on a live session *)
    rewrite holders_app, holders_cons in Hcount |- *. unfold holds_lock in *.
    destruct IS_MOBILE_PLATFORM eqn:Hplat.
    + unfold result, after, session_of.
      rewrite (CollectData_mobile s space w Hplat). cbn. auto.
    + split; [|discriminate].
      destruct (status_ s) eqn:Hst.
      * destruct (CollectData_ok s space w Hplat Hst)
          as (_ & _ & _ & _ & _ & H6 & _ & _ & H9 & _).
        rewrite H6, H9.
        destruct (ProfilerLock.Active (profiler_lock_ s));
          destruct (session_active w); lia.
      * unfold result, after, session_of.
        rewrite (CollectData_failed s space w Hplat) by (rewrite Hst; discriminate).
        exact Hcount.
  - (* a live session is destroyed *)
    rewrite holders_app, holders_cons in Hcount. rewrite holders_app.
    unfold holds_lock in *.
    destruct IS_MOBILE_PLATFORM eqn:Hplat.
    + unfold after. rewrite (destroy_mobile s w Hplat). cbn.
      rewrite (Hmobile eq_refl) in Hcount |- *. split; [lia | auto].
    + split; [|discriminate].
      destruct (destroy_supported s w Hplat) as (_ & _ & _ & D4).
      rewrite D4.
      destruct (ProfilerLock.Active (profiler_lock_ s));
        destruct (session_active w); lia.
Qed.

Lemma reachable_lock_accounted (p : Process) :
  reachable p -> lock_accounted p.
Proof.
  induction 1 as [w Hfree | p q Hp IH Hstep].
  - unfold lock_accounted. cbn. rewrite Hfree. split; [reflexivity | auto].
  - exact (step_keeps_lock_accounted p q IH Hstep).
Qed.

(** X14.  In a process that starts with a free lock and no session and then
    creates sessions, collects from them and destroys them in any order, at
    most one live session holds the process lock at any time, and the process
    flag is set exactly when one does. *)
Theorem one_lock_holder (p : Process) :
  reachable p ->
  (holders (sessions p) <= 1)%nat
  /\ (session_active (world p) = true <-> holders (sessions p) = 1%nat).
Proof.
  intros Hp. destruct (reachable_lock_accounted p Hp) as [Hcount _].
  rewrite Hcount. destruct (session_active (world p)).
  - split; [lia | tauto].
  - split; [lia|]. split; [discriminate | lia].
Qed.

End ProcessInvariant.

(* ================================================================== *)
(** ** Concrete runs of the further properties *)

Lemma construct_logs_start_failures_witness :
  exists lines : list (Severity * LogMessage),
    Forall delay_line lines
    /\ (List.length lines <= 1)%nat
    /\ logged (after (construct (env := supported_demo) (new_format_options 500))
                 idle_world)
       = [(INFO, MsgInitializing)] ++ lines ++ [(INFO, MsgStarted)]
           ++ [(WARNING, MsgStartError (Error INTERNAL "start failed"%string))].
Proof.
  exact (construct_logs_start_failures (env := supported_demo)
           (new_format_options 500) idle_world eq_refl eq_refl).
Defined.

Lemma construct_call_order_witness :
  exists delay : list Call,
    delay_calls delay
    /\ calls (after (construct (env := supported_demo) (new_format_options 1500))
                idle_world)
       = [CallAcquire] ++ delay
           ++ [CallGetCurrentTimeNanos;
               CallCreateProfilers (new_format_options 1500);
               CallStart 0; CallStart 1].
Proof.
  exact (construct_call_order (env := supported_demo)
           (new_format_options 1500) idle_world eq_refl eq_refl).
Defined.

Lemma plugin_count_invariant_witness :
  let s0 := result (construct (env := supported_demo) old_format_options) idle_world in
  let s := session_of (result (CollectData s0 []) idle_world) in
  List.length (profilers_ s) = 2%nat.
Proof.
  intros s0 s.
  exact (plugin_count_invariant (env := supported_demo) s
           (state_collected s0 [] idle_world
              (state_constructed old_format_options idle_world))).
Defined.

Lemma destroy_without_collect_witness :
  let s1 := result (construct (env := supported_demo) old_format_options) idle_world in
  let w1 := after (construct (env := supported_demo) old_format_options) idle_world in
  calls (after (destroy s1) w1)
  = calls w1 ++ [CallStop 0; CallStop 1; CallReleaseIfActive true]
  /\ session_active (after (destroy s1) w1) = false.
Proof.
  cbv zeta.
  destruct (destroy_without_collect (env := supported_demo) old_format_options
              idle_world eq_refl) as (H1 & _ & H3 & _).
  split; [exact H1 | exact H3].
Defined.

Lemma failed_session_leaves_lock_witness :
  let s := result (construct (env := supported_demo) old_format_options) busy_world in
  session_active (after (construct (env := supported_demo) old_format_options)
                    busy_world) = true
  /\ calls (after (destroy s) busy_world) = [CallReleaseIfActive false]
  /\ session_active (after (destroy s) busy_world) = true.
Proof.
  cbv zeta.
  destruct (failed_session_leaves_lock (env := supported_demo) old_format_options
              busy_world eq_refl eq_refl) as (H1 & _ & Hd).
  destruct (Hd busy_world) as (D1 & D2 & _).
  split; [exact H1 | split; [exact D1 | exact D2]].
Defined.

Lemma second_session_refused_witness :
  let w1 := after (construct (env := supported_demo) old_format_options) idle_world in
  ProfilerSession_Status
    (result (construct (env := supported_demo) (new_format_options 1500)) w1)
  = Error ALREADY_ACTIVE "Another profiling session active."%string
  /\ profilers_
       (result (construct (env := supported_demo) (new_format_options 1500)) w1) = [].
Proof.
  cbv zeta.
  destruct (second_session_refused (env := supported_demo) old_format_options
              (new_format_options 1500) idle_world eq_refl) as (H1 & H2 & _).
  split; [exact H1 | exact H2].
Defined.

Lemma next_session_accepted_witness :
  let s1 := result (construct (env := supported_demo) old_format_options) idle_world in
  let w1 := after (construct (env := supported_demo) old_format_options) idle_world in
  ProfilerSession_Status
    (result (construct (env := supported_demo) (new_format_options 1500))
       (after (CollectData s1 []) w1)) = OK
  /\ ProfilerSession_Status
       (result (construct (env := supported_demo) (new_format_options 1500))
          (after (destroy s1) w1)) = OK.
Proof.
  exact (next_session_accepted (env := supported_demo) old_format_options
           (new_format_options 1500) [] idle_world eq_refl).
Defined.

Lemma mobile_lifecycle_is_inert_witness :
  after (bind (construct (env := mobile_demo) old_format_options)
           (fun s => bind (CollectData s [])
                       (fun r => destroy (session_of r)))) busy_world
  = busy_world.
Proof.
  exact (mobile_lifecycle_is_inert (env := mobile_demo) old_format_options []
           busy_world eq_refl).
Defined.

Lemma no_plugin_session_witness :
  let s1 := result (construct (env := demo_env false []) old_format_options)
              idle_world in
  let w1 := after (construct (env := demo_env false []) old_format_options)
              idle_world in
  ProfilerSession_Status s1 = OK
  /\ space_of (result (CollectData s1 ["caller"%string]) w1) = ["caller"%string]
  /\ calls (after (CollectData s1 ["caller"%string]) w1)
     = calls w1 ++ [CallReleaseIfActive true; CallPostProcess (Some 1000)].
Proof.
  cbv zeta.
  destruct (no_plugin_session (env := demo_env false []) old_format_options
              ["caller"%string] idle_world eq_refl eq_refl eq_refl)
    as (H1 & _ & _ & H4 & H5).
  split; [exact H1 | split; [exact H4 | exact H5]].
Defined.

Lemma one_lock_holder_witness :
  let s1 := result (construct (env := supported_demo) old_format_options) idle_world in
  let w1 := after (construct (env := supported_demo) old_format_options) idle_world in
  let s2 := result (construct (env := supported_demo) (new_format_options 1500)) w1 in
  let w2 := after (construct (env := supported_demo) (new_format_options 1500)) w1 in
  (holders [s1; s2] <= 1)%nat
  /\ (session_active w2 = true <-> holders [s1; s2] = 1%nat).
Proof.
  cbv zeta.
  exact (one_lock_holder (env := supported_demo) _
           (reachable_step _ _
              (reachable_step _ _
                 (reachable_start idle_world eq_refl)
                 (step_create old_format_options idle_world []))
              (step_create (new_format_options 1500) _ _))).
Defined.
